(** * ztls: a TLS grabbing client on top of zcrypto/tls

    Shallow embedding of [pkg/tlsx/ztls/ztls.go] and verification of its
    connection life cycle: client construction ([New]), the dial / handshake
    race ([Connect]) and the certificate extraction pipeline
    ([parseSimpleTLSCertificate], [convertCertificateToResponse]).

    The collaborators the package calls (the dialer, the handshake engine,
    the X.509 decoder, the Go scheduler) are not part of the package; what
    they answer during one call is collected in a [World] record, and what
    the package asks of them is recorded in a trace of [event]s. *)

From Stdlib Require Import ZArith Lia Ascii String.
From Stdlib.Init Require Import Byte.
From stdpp Require Import base option gmap strings list.

Local Open Scope string_scope.
Local Open Scope list_scope.

(** ** Go error values *)

(** The dynamic values an [error] interface holds in this package.  A nil
    interface is [None] of [option error]. *)
Inductive error : Type :=
| timeoutError                              (* ztls.timeoutError{} *)
| ErrCertsOnly                              (* tls.ErrCertsOnly, the sentinel *)
| foreignError (msg : string)               (* any other value made by net or the engine *)
| errorString (msg : string)                (* made by fmt.Errorf *)
| withMessage (cause : error) (msg : string). (* made by errors.Wrap *)

Global Instance error_eq_dec : EqDecision error.
Proof. solve_decision. Defined.

Module errors.

(** [errors.Wrap(err, message)]: nil stays nil, anything else is annotated. *)
Definition Wrap (err : option error) (message : string) : option error :=
  match err with
  | None => None
  | Some e => Some (withMessage e message)
  end.

(** [errors.Cause(err)]: peel the annotations off. *)
Fixpoint Cause (e : error) : error :=
  match e with
  | withMessage cause _ => Cause cause
  | _ => e
  end.

End errors.

Module fmt.

(** [fmt.Errorf(prefix + "%s", arg)], the only shape the package uses. *)
Definition Errorf (prefix arg : string) : error := errorString (prefix +:+ arg).

End fmt.

(** ** Fixed-width integers *)

Definition uint16 (z : Z) : Z := (z mod 65536)%Z.

(** Two's complement wrap-around of a 64-bit signed integer. *)
Definition int64 (z : Z) : Z := ((z + 2 ^ 63) mod 2 ^ 64 - 2 ^ 63)%Z.

Module time.

(** [time.Second] as a [time.Duration], in nanoseconds. *)
Definition Second : Z := 1000000000%Z.

End time.

(** ** The zcrypto/tls boundary *)

Module tls.

(** Protocol version numbers, as on the wire. *)
Definition VersionSSL30 : Z := 0x0300%Z.
Definition VersionTLS10 : Z := 0x0301%Z.
Definition VersionTLS11 : Z := 0x0302%Z.
Definition VersionTLS12 : Z := 0x0303%Z.

(** The fields of [tls.Config] the package sets. *)
Record Config : Type := mkConfig {
  ServerName : string;
  MinVersion : Z;
  MaxVersion : Z;
  CertsOnly : bool;
  InsecureSkipVerify : bool;
}.

Record SimpleCertificate : Type := { Raw : list byte }.

(** The part of the handshake log [Connect] reads:
    [hl.ServerHello.Version], [hl.ServerCertificates.Certificate] and
    [hl.ServerCertificates.Chain]. *)
Record ServerHandshake : Type := mkLog {
  ServerHello_Version : Z;
  ServerCertificates_Certificate : SimpleCertificate;
  ServerCertificates_Chain : list SimpleCertificate;
}.

End tls.

Global Instance Config_eq_dec : EqDecision tls.Config.
Proof. solve_decision. Defined.

(** ** The zcrypto/x509 boundary *)

Module pkix.
Record Name : Type := { CommonName : string; Organization : list string }.
End pkix.

Module x509.
Record Certificate : Type := mkCertificate {
  DNSNames : list string;
  EmailAddresses : list string;
  Issuer : pkix.Name;
  Subject : pkix.Name;
}.
End x509.

(** ** Package clients: options and responses *)

Module clients.

Record Options : Type := mkOptions {
  Timeout : Z;
  ServerName : string;
  MinVersion : string;
  MaxVersion : string;
  CertsOnly : bool;
  VerifyServerCertificate : bool;
}.

Record CertificateResponse : Type := mkCertificateResponse {
  DNSNames : list string;
  Emails : list string;
  IssuerCommonName : string;
  IssuerOrganization : list string;
  SubjectCommonName : string;
  SubjectOrganization : list string;
}.

(** [clients.CertificateResponse{}] *)
Definition zero_CertificateResponse : CertificateResponse :=
  mkCertificateResponse [] [] "" [] "" [].

Record Response : Type := mkResponse {
  Host : string;
  Port : string;
  Version : string;
  TLSConnection : string;
  Leaf : CertificateResponse;
  Chain : list CertificateResponse;
}.

End clients.

(** ** Channels, timers and goroutines *)

(** A buffered channel together with the senders that are still to write
    into it: the [time.AfterFunc] timer and the handshake goroutine. *)
Record chan : Type := mkChan {
  cap : nat;
  buf : list (option error);                (* written, not yet received *)
  timer_at : option Z;                      (* when the timer sends its value *)
  hs_at : option (Z * option error);        (* when the goroutine sends, and what *)
}.

(** ** The Go library functions the package calls *)

Module net.

Record Dialer : Type := { Timeout : Z }.

Fixpoint has_colon (s : string) : bool :=
  match s with
  | EmptyString => false
  | String a s' => if decide (a = ":"%char) then true else has_colon s'
  end.

(** [net.JoinHostPort]: a host with a colon in it is taken for a literal
    IPv6 address and bracketed. *)
Definition JoinHostPort (host port : string) : string :=
  if has_colon host then "[" +:+ host +:+ "]:" +:+ port
  else host +:+ ":" +:+ port.

End net.

(** [strings.LastIndex(s, substr)] scanning from offset [i] of the whole
    string: the index of the last occurrence, or -1. *)
Fixpoint LastIndex_from (i : Z) (s substr : string) : Z :=
  match s with
  | EmptyString => if decide (substr = "") then i else (-1)%Z
  | String _ s' =>
      let r := LastIndex_from (i + 1) s' substr in
      if decide (r = (-1)%Z)
      then (if String.prefix substr s then i else (-1)%Z)
      else r
  end.

Definition strings_LastIndex (s substr : string) : Z := LastIndex_from 0 s substr.

(** [len(s)] *)
Definition len (s : string) : Z := Z.of_nat (String.length s).

(** The slice expression [s[:hi]]. *)
Definition slice_to (s : string) (hi : Z) : string := String.substring 0 (Z.to_nat hi) s.

(** Indexing a Go map: a missing key gives the zero value. *)
Definition map_index `{Countable K} (m : gmap K string) (k : K) : string :=
  default "" (m !! k).

(** ** The run-time state of one call *)

(** Addresses of [tls.Config] objects. *)
Abbreviation loc := positive.

(** What the package asks of its collaborators, in program order. *)
Inductive event : Type :=
| EvMakeChan (capacity : nat)               (* make(chan error, capacity) *)
| EvAfterFunc (d : Z)                       (* time.AfterFunc(d, send timeoutError{}) *)
| EvDial (network address : string)         (* c.dialer.Dial(network, address) *)
| EvTLSClient (config : loc)                (* tls.Client(conn, config) *)
| EvHandshake                               (* tlsConn.Handshake() in the caller *)
| EvGoHandshake                             (* go func() { errChannel <- tlsConn.Handshake() }() *)
| EvRecv                                    (* <-errChannel *)
| EvGetHandshakeLog                         (* tlsConn.GetHandshakeLog() *)
| EvClose.                                  (* the deferred conn.Close() *)

Global Instance event_eq_dec : EqDecision event.
Proof. solve_decision. Defined.

(** What the collaborators answer during one [Connect]. *)
Record World : Type := mkWorld {
  dial_latency : N;                         (* how long Dial takes, ns *)
  dial_result : option error;               (* nil: connected *)
  hs_latency : option N;                    (* how long Handshake takes; None: it never returns *)
  hs_result : option error;                 (* what Handshake returns *)
  hs_log : tls.ServerHandshake;             (* what GetHandshakeLog returns *)
  timer_wins_ties : bool;                   (* scheduler's choice when both sends are due at once *)
  ParseCertificate : list byte -> x509.Certificate + error;
}.

Record Runtime : Type := mkRuntime {
  now : Z;                                  (* logical clock, ns *)
  heap : gmap loc tls.Config;               (* the tls.Config objects *)
  errChannel : option chan;                 (* the local errChannel; None: nil channel *)
  trace : list event;
}.

Inductive outcome (A : Type) : Type :=
| Done (a : A)                              (* the call returned a *)
| Hang                                      (* the call never returns *)
| Panic.                                    (* nil or dangling pointer dereference *)
Arguments Done {A} a.
Arguments Hang {A}.
Arguments Panic {A}.

Definition M (A : Type) : Type := Runtime -> outcome A * Runtime.

Definition ret {A} (a : A) : M A := fun rt => (Done a, rt).

Definition bind {A B} (m : M A) (f : A -> M B) : M B :=
  fun rt =>
    match m rt with
    | (Done a, rt') => f a rt'
    | (Hang, rt') => (Hang, rt')
    | (Panic, rt') => (Panic, rt')
    end.

Declare Scope go_scope.
Delimit Scope go_scope with go.
Notation "x <- m ;; k" := (bind m (fun x => k))
  (at level 100, m at next level, right associativity) : go_scope.
Notation "m ;;; k" := (bind m (fun _ => k))
  (at level 100, right associativity) : go_scope.
Local Open Scope go_scope.

Definition emit (e : event) : M unit :=
  fun rt => (Done tt, mkRuntime (now rt) (heap rt) (errChannel rt) (trace rt ++ [e])).

(** [&T{...}]: a new object at an unused address. *)
Definition alloc (v : tls.Config) : M loc :=
  fun rt =>
    let p := fresh (dom (heap rt)) in
    (Done p, mkRuntime (now rt) (<[p := v]> (heap rt)) (errChannel rt) (trace rt)).

(** Reading through a pointer. *)
Definition load (p : loc) : M tls.Config :=
  fun rt =>
    match heap rt !! p with
    | Some v => (Done v, rt)
    | None => (Panic, rt)
    end.

(** Updating the object a pointer refers to, in place. *)
Definition modify (p : loc) (f : tls.Config -> tls.Config) : M unit :=
  fun rt =>
    match heap rt !! p with
    | Some v => (Done tt, mkRuntime (now rt) (<[p := f v]> (heap rt)) (errChannel rt) (trace rt))
    | None => (Panic, rt)
    end.

Definition set_ServerName (s : string) (c : tls.Config) : tls.Config :=
  tls.mkConfig s (tls.MinVersion c) (tls.MaxVersion c) (tls.CertsOnly c) (tls.InsecureSkipVerify c).
Definition set_MinVersion (v : Z) (c : tls.Config) : tls.Config :=
  tls.mkConfig (tls.ServerName c) v (tls.MaxVersion c) (tls.CertsOnly c) (tls.InsecureSkipVerify c).
Definition set_MaxVersion (v : Z) (c : tls.Config) : tls.Config :=
  tls.mkConfig (tls.ServerName c) (tls.MinVersion c) v (tls.CertsOnly c) (tls.InsecureSkipVerify c).

(** [defer d] around [body]: [d] runs when [body] returns or panics. *)
Definition defer {A} (d : M unit) (body : M A) : M A :=
  fun rt =>
    match body rt with
    | (Hang, rt') => (Hang, rt')
    | (o, rt') => (o, snd (d rt'))
    end.

(** [var errChannel chan error]: a nil channel. *)
Definition var_errChannel : M unit :=
  fun rt => (Done tt, mkRuntime (now rt) (heap rt) None (trace rt)).

(** [errChannel = make(chan error, capacity)] *)
Definition make_chan (capacity : nat) : M unit :=
  fun rt => (Done tt, mkRuntime (now rt) (heap rt) (Some (mkChan capacity [] None None))
                                (trace rt ++ [EvMakeChan capacity])).

(** [time.AfterFunc(d, func() { errChannel <- timeoutError{} })]: the send is
    due [d] from now (at once when [d] is negative).  A send on a nil channel
    blocks for ever and is never seen. *)
Definition AfterFunc (d : Z) : M unit :=
  fun rt =>
    let ch := match errChannel rt with
              | Some ch => Some (mkChan (cap ch) (buf ch) (Some (now rt + Z.max 0 d)%Z) (hs_at ch))
              | None => None
              end in
    (Done tt, mkRuntime (now rt) (heap rt) ch (trace rt ++ [EvAfterFunc d])).

(** [c.dialer.Dial(network, address)]; the connection is left implicit, it is
    there exactly when the error is nil. *)
Definition Dial (w : World) (network address : string) : M (option error) :=
  fun rt =>
    (Done (dial_result w),
     mkRuntime (now rt + Z.of_N (dial_latency w))%Z (heap rt) (errChannel rt)
               (trace rt ++ [EvDial network address])).

(** [tls.Client(conn, config)]: the engine keeps the pointer. *)
Definition tls_Client (config : loc) : M unit := emit (EvTLSClient config).

(** [tlsConn.Handshake()] called in the caller's own goroutine. *)
Definition Handshake (w : World) : M (option error) :=
  fun rt =>
    match hs_latency w with
    | Some d => (Done (hs_result w),
                 mkRuntime (now rt + Z.of_N d)%Z (heap rt) (errChannel rt)
                           (trace rt ++ [EvHandshake]))
    | None => (Hang, mkRuntime (now rt) (heap rt) (errChannel rt) (trace rt ++ [EvHandshake]))
    end.

(** [go func() { errChannel <- tlsConn.Handshake() }()] *)
Definition go_Handshake (w : World) : M unit :=
  fun rt =>
    let ch := match errChannel rt with
              | Some ch =>
                  Some (mkChan (cap ch) (buf ch) (timer_at ch)
                          (match hs_latency w with
                           | Some d => Some ((now rt + Z.of_N d)%Z, hs_result w)
                           | None => None
                           end))
              | None => None
              end in
    (Done tt, mkRuntime (now rt) (heap rt) ch (trace rt ++ [EvGoHandshake])).

(** Does the timer's send come before the goroutine's? *)
Definition timer_first (w : World) (t_timer t_hs : Z) : bool :=
  (t_timer <? t_hs)%Z || ((t_timer =? t_hs)%Z && timer_wins_ties w).

(** [<-errChannel]: the caller sleeps until the first value is there and
    takes it; the other sender stays pending. *)
Definition recv (w : World) : M (option error) :=
  fun rt =>
    let tr := trace rt ++ [EvRecv] in
    match errChannel rt with
    | None => (Hang, mkRuntime (now rt) (heap rt) None tr)
    | Some ch =>
        let from_timer t_timer :=
          (Done (Some timeoutError),
           mkRuntime (Z.max (now rt) t_timer) (heap rt)
                     (Some (mkChan (cap ch) (buf ch) None (hs_at ch))) tr) in
        let from_hs t_hs e :=
          (Done e,
           mkRuntime (Z.max (now rt) t_hs) (heap rt)
                     (Some (mkChan (cap ch) (buf ch) (timer_at ch) None)) tr) in
        match buf ch with
        | v :: rest =>
            (Done v, mkRuntime (now rt) (heap rt)
                               (Some (mkChan (cap ch) rest (timer_at ch) (hs_at ch))) tr)
        | [] =>
            match timer_at ch, hs_at ch with
            | Some t_timer, Some (t_hs, e) => if timer_first w t_timer t_hs then from_timer t_timer else from_hs t_hs e
            | Some t_timer, None => from_timer t_timer
            | None, Some (t_hs, e) => from_hs t_hs e
            | None, None => (Hang, mkRuntime (now rt) (heap rt) (Some ch) tr)
            end
        end
    end.

(** What is in the channel once every pending sender has written: the
    values already buffered, then the pending sends in the order they are
    due. *)
Definition settle (w : World) (ch : chan) : list (option error) :=
  buf ch ++
  match timer_at ch, hs_at ch with
  | Some t_timer, Some (t_hs, e) =>
      if timer_first w t_timer t_hs then [Some timeoutError; e] else [e; Some timeoutError]
  | Some _, None => [Some timeoutError]
  | None, Some (_, e) => [e]
  | None, None => []
  end.

(** [tlsConn.GetHandshakeLog()] *)
Definition GetHandshakeLog (w : World) : M tls.ServerHandshake :=
  fun rt => (Done (hs_log w),
             mkRuntime (now rt) (heap rt) (errChannel rt) (trace rt ++ [EvGetHandshakeLog])).

(** ** Package ztls *)

Module ztls.

(** Client is a TLS grabbing client using crypto/tls *)
Record Client : Type := mkClient {
  dialer : net.Dialer;
  tlsConfig : loc;
}.

(** versionStringToTLSVersion converts tls version string to version *)
Definition versionStringToTLSVersion : gmap string Z :=
  list_to_map
    [ ("ssl30", tls.VersionSSL30);
      ("tls10", tls.VersionTLS10);
      ("tls11", tls.VersionTLS11);
      ("tls12", tls.VersionTLS12) ].

(** versionToTLSVersionString converts tls version to version string *)
Definition versionToTLSVersionString : gmap Z string :=
  list_to_map
    [ (tls.VersionSSL30, "ssl30");
      (tls.VersionTLS10, "tls10");
      (tls.VersionTLS11, "tls11");
      (tls.VersionTLS12, "tls12") ].

(** One of the two version blocks of [New]: [Some e] when the block
    returns [nil, e], [None] when control falls through. *)
Definition set_version (cfg : loc) (token format : string)
    (set : Z -> tls.Config -> tls.Config) : M (option error) :=
  if decide (token ≠ "") then
    match versionStringToTLSVersion !! token with
    | None => ret (Some (fmt.Errorf format token))
    | Some version => modify cfg (set version) ;;; ret None
    end
  else ret None.

(** New creates a new grabbing client using crypto/tls *)
Definition New (options : clients.Options) : M (option Client * option error) :=
  cfg <- alloc (tls.mkConfig "" tls.VersionSSL30 tls.VersionTLS12
                  (clients.CertsOnly options)
                  (negb (clients.VerifyServerCertificate options))) ;;
  let c := mkClient
             {| net.Timeout := int64 (int64 (clients.Timeout options) * time.Second) |}
             cfg in
  (if decide (clients.ServerName options ≠ "")
   then modify cfg (set_ServerName (clients.ServerName options))
   else ret tt) ;;;
  r <- set_version cfg (clients.MinVersion options)
         "invalid min version specified: " set_MinVersion ;;
  match r with
  | Some e => ret (None, Some e)
  | None =>
      r <- set_version cfg (clients.MaxVersion options)
             "invalid max version specified: " set_MaxVersion ;;
      match r with
      | Some e => ret (None, Some e)
      | None => ret (Some c, None)
      end
  end.

(** The methods of [timeoutError]. *)
Definition timeoutError_Error : string := "tls: DialWithDialer timed out".
Definition timeoutError_Timeout : bool := true.
Definition timeoutError_Temporary : bool := true.

(** The type assertion [err.(timeoutError)]: is the dynamic type of the
    interface value [timeoutError]?  The annotated values of errors.Wrap
    have a type of their own. *)
Definition is_timeoutError (e : error) : bool :=
  match e with
  | timeoutError => true
  | _ => false
  end.

(** The assertion [err.(interface{ Timeout() bool })] followed by the call,
    for the values this package makes itself. *)
Definition Timeout_of (e : error) : option bool :=
  if is_timeoutError e then Some timeoutError_Timeout else None.
Definition Temporary_of (e : error) : option bool :=
  if is_timeoutError e then Some timeoutError_Temporary else None.

(** [x509.ParseCertificate] answers with a certificate or with an error and
    a nil certificate; the error is dropped and the pointer returned. *)
Definition parseSimpleTLSCertificate (w : World) (cert : tls.SimpleCertificate)
    : option x509.Certificate :=
  match ParseCertificate w (tls.Raw cert) with
  | inl parsed => Some parsed
  | inr _ => None
  end.

Definition convertCertificateToResponse (cert : option x509.Certificate)
    : clients.CertificateResponse :=
  match cert with
  | None => clients.zero_CertificateResponse
  | Some cert =>
      clients.mkCertificateResponse
        (x509.DNSNames cert)
        (x509.EmailAddresses cert)
        (pkix.CommonName (x509.Issuer cert))
        (pkix.Organization (x509.Issuer cert))
        (pkix.CommonName (x509.Subject cert))
        (pkix.Organization (x509.Subject cert))
  end.

(** [response.Chain = append(response.Chain, x)] *)
Definition append_Chain (response : clients.Response) (x : clients.CertificateResponse)
    : clients.Response :=
  clients.mkResponse (clients.Host response) (clients.Port response)
    (clients.Version response) (clients.TLSConnection response)
    (clients.Leaf response) (clients.Chain response ++ [x]).

(** The statements of [Connect] after [defer conn.Close()]. *)
Definition Connect_connected (w : World) (c : Client) (hostname port address : string)
    (timeout : Z) : M (option clients.Response * option error) :=
  let colonPos := strings_LastIndex address ":" in
  let colonPos := if decide (colonPos = (-1)%Z) then len address else colonPos in
  let hostnameValue := slice_to address colonPos in
  let config := tlsConfig c in
  config_val <- load config ;;
  config <- (if decide (tls.ServerName config_val = "") then
               c' <- alloc config_val ;;            (* c := *config, shadowing the receiver *)
               modify c' (set_ServerName hostnameValue) ;;;
               ret c'                               (* config = &c *)
             else ret config) ;;
  tls_Client (tlsConfig c) ;;;                      (* the receiver's c.tlsConfig *)
  err <- (if decide (timeout = 0%Z) then Handshake w
          else go_Handshake w ;;; recv w) ;;
  let err := if decide (err = Some ErrCertsOnly) then None else err in
  match err with
  | Some _ => ret (None, errors.Wrap err "could not do tls handshake")
  | None =>
      hl <- GetHandshakeLog w ;;
      let tlsVersion :=
        map_index versionToTLSVersionString (uint16 (tls.ServerHello_Version hl)) in
      let response :=
        clients.mkResponse hostname port tlsVersion "ztls"
          (convertCertificateToResponse
             (parseSimpleTLSCertificate w (tls.ServerCertificates_Certificate hl)))
          [] in
      let response :=
        fold_left
          (fun response cert =>
             append_Chain response
               (convertCertificateToResponse (parseSimpleTLSCertificate w cert)))
          (tls.ServerCertificates_Chain hl) response in
      ret (Some response, None)
  end.

(** Connect connects to a host and grabs the response data *)
Definition Connect (w : World) (c : Client) (hostname port : string)
    : M (option clients.Response * option error) :=
  let address := net.JoinHostPort hostname port in
  let timeout := net.Timeout (dialer c) in
  var_errChannel ;;;
  (if decide (timeout ≠ 0%Z) then
     make_chan 2 ;;;
     AfterFunc timeout
   else ret tt) ;;;
  err <- Dial w "tcp" address ;;
  match err with
  | Some _ => ret (None, errors.Wrap err "could not connect to address")
  | None => defer (emit EvClose) (Connect_connected w c hostname port address timeout)
  end.

End ztls.

Import ztls.

(** ** Vocabulary of the statements *)

(** The tokens of the version table. *)
Definition known_token (s : string) : Prop :=
  s ∈ ["ssl30"; "tls10"; "tls11"; "tls12"].

(** A token [New] refuses: supplied, and not in the table. *)
Definition invalid_token (s : string) : Prop := s ≠ "" ∧ ¬ known_token s.

(** The client's configuration object exists. *)
Definition live (c : Client) (rt : Runtime) : Prop := is_Some (heap rt !! tlsConfig c).

(** When the timer armed at the start of [Connect] sends. *)
Definition timer_due (c : Client) (rt : Runtime) : Z :=
  (now rt + Z.max 0 (net.Timeout (dialer c)))%Z.

(** When a handshake of duration [d], started once the dial is over, sends. *)
Definition hs_due (w : World) (rt : Runtime) (d : N) : Z :=
  (now rt + Z.of_N (dial_latency w) + Z.of_N d)%Z.

(** The timer writes into the channel before the handshake has completed
    (or the handshake never completes). *)
Definition timeout_fires_first (w : World) (c : Client) (rt : Runtime) : Prop :=
  match hs_latency w with
  | None => True
  | Some d => timer_first w (timer_due c rt) (hs_due w rt d) = true
  end.

(** The value [Connect] gets for [err] is the one [Handshake] returned:
    the handshake returns, and with a timer running it writes first. *)
Definition handshake_returns_first (w : World) (c : Client) (rt : Runtime) : Prop :=
  match hs_latency w with
  | None => False
  | Some d =>
      net.Timeout (dialer c) = 0%Z ∨ timer_first w (timer_due c rt) (hs_due w rt d) = false
  end.

(** The value of [err] after the handshake step, as a function of the
    world: used to state the closed form of [Connect]. *)
Definition observe (w : World) (c : Client) (rt : Runtime) : outcome (option error) :=
  if decide (net.Timeout (dialer c) = 0%Z) then
    match hs_latency w with
    | Some _ => Done (hs_result w)
    | None => Hang
    end
  else
    match hs_latency w with
    | None => Done (Some timeoutError)
    | Some d =>
        if timer_first w (timer_due c rt) (hs_due w rt d)
        then Done (Some timeoutError) else Done (hs_result w)
    end.

(** The certificate extraction pipeline. *)
Definition extract (w : World) (cert : tls.SimpleCertificate) : clients.CertificateResponse :=
  convertCertificateToResponse (parseSimpleTLSCertificate w cert).

(** The response of a successful [Connect], read off the handshake log. *)
Definition response_of (w : World) (hostname port : string) : clients.Response :=
  clients.mkResponse hostname port
    (map_index versionToTLSVersionString (uint16 (tls.ServerHello_Version (hs_log w))))
    "ztls"
    (extract w (tls.ServerCertificates_Certificate (hs_log w)))
    (map (extract w) (tls.ServerCertificates_Chain (hs_log w))).

(** The host part [Connect] computes from the dialed address. *)
Definition hostnameValue_of (hostname port : string) : string :=
  let address := net.JoinHostPort hostname port in
  let colonPos := strings_LastIndex address ":" in
  slice_to address (if decide (colonPos = (-1)%Z) then len address else colonPos).

(** The events of [Connect] up to and including the dial. *)
Definition dial_events (c : Client) (hostname port : string) : list event :=
  (if decide (net.Timeout (dialer c) ≠ 0%Z)
   then [EvMakeChan 2; EvAfterFunc (net.Timeout (dialer c))] else [])
  ++ [EvDial "tcp" (net.JoinHostPort hostname port)].

(** Events that involve the handshake engine. *)
Definition engine_event (e : event) : bool :=
  match e with
  | EvTLSClient _ | EvHandshake | EvGoHandshake | EvRecv | EvGetHandshakeLog => true
  | _ => false
  end.

(** The configuration objects handed to [tls.Client], in order. *)
Definition engine_configs (tr : list event) : list loc :=
  omap (λ e, match e with EvTLSClient p => Some p | _ => None end) tr.

(** Events that set up the timeout race. *)
Definition race_event (e : event) : bool :=
  match e with
  | EvMakeChan _ | EvAfterFunc _ | EvGoHandshake | EvRecv => true
  | _ => false
  end.

(** The same world with another ServerHello version in the handshake log. *)
Definition with_ServerHello_Version (w : World) (v : Z) : World :=
  mkWorld (dial_latency w) (dial_result w) (hs_latency w) (hs_result w)
    (tls.mkLog v (tls.ServerCertificates_Certificate (hs_log w))
       (tls.ServerCertificates_Chain (hs_log w)))
    (timer_wins_ties w) (ParseCertificate w).

(** ** Sample inputs *)

Definition rt_init : Runtime := mkRuntime 0 ∅ None [].

(** One second of timeout, nothing else set. *)
Definition sample_options : clients.Options := clients.mkOptions 1 "" "" "" false false.
Definition sample_client : Client := mkClient {| net.Timeout := 1000000000 |} 1%positive.
Definition sample_rt : Runtime := snd (New sample_options rt_init).

(** No timeout. *)
Definition sync_options : clients.Options := clients.mkOptions 0 "" "" "" true false.
Definition sync_client : Client := mkClient {| net.Timeout := 0 |} 1%positive.
Definition sync_rt : Runtime := snd (New sync_options rt_init).

Definition sample_certificate : x509.Certificate :=
  x509.mkCertificate ["example.com"; "www.example.com"] ["admin@example.com"]
    {| pkix.CommonName := "Example CA"; pkix.Organization := ["Example Trust"] |}
    {| pkix.CommonName := "example.com"; pkix.Organization := ["Example Inc"] |}.

(** A decoder that accepts exactly the one-byte sequence [x30]. *)
Definition sample_decoder (raw : list byte) : x509.Certificate + error :=
  match raw with
  | [x30] => inl sample_certificate
  | _ => inr (foreignError "x509: malformed certificate")
  end.

Definition good_raw : tls.SimpleCertificate := {| tls.Raw := [x30] |}.
Definition bad_raw : tls.SimpleCertificate := {| tls.Raw := [xff; x00] |}.

Definition sample_log : tls.ServerHandshake :=
  tls.mkLog tls.VersionTLS12 good_raw [good_raw; bad_raw].

(** Dial in 10ms, handshake done in 50ms. *)
Definition fast_world : World :=
  mkWorld 10000000 None (Some 50000000%N) None sample_log true sample_decoder.

(** Dial in 10ms, handshake would take two seconds. *)
Definition slow_world : World :=
  mkWorld 10000000 None (Some 2000000000%N) None sample_log true sample_decoder.

(** The engine stops after the certificates. *)
Definition certs_only_world : World :=
  mkWorld 10000000 None (Some 50000000%N) (Some ErrCertsOnly) sample_log true sample_decoder.

(** The dial is refused after 3ms. *)
Definition refused_world : World :=
  mkWorld 3000000 (Some (foreignError "dial tcp 192.0.2.1:443: connect: connection refused"))
    None None sample_log true sample_decoder.

(** ** Vocabulary of the further properties *)

(** The same world with another X.509 decoder. *)
Definition with_ParseCertificate (w : World)
    (decoder : list byte -> x509.Certificate + error) : World :=
  mkWorld (dial_latency w) (dial_result w) (hs_latency w) (hs_result w) (hs_log w)
    (timer_wins_ties w) decoder.

(** The configuration [New] builds from the options: the defaults, with
    the version bounds replaced by the table's numbers for the tokens. *)
Definition version_or (fallback : Z) (token : string) : Z :=
  default fallback (versionStringToTLSVersion !! token).

(** The range of a Go [int] on a 64-bit platform. *)
Definition int_range (z : Z) : Prop := (- 2 ^ 63 ≤ z < 2 ^ 63)%Z.

(** The events one call of [Connect] adds to the trace. *)
Definition Connect_events (w : World) (c : Client) (hostname port : string) (rt : Runtime)
    : list event :=
  drop (length (trace rt)) (trace (snd (Connect w c hostname port rt))).

(** A decoder that refuses everything. *)
Definition refusing_decoder (raw : list byte) : x509.Certificate + error :=
  inr (foreignError "x509: malformed certificate").

(** The handshake fails with an alert after 50ms. *)
Definition alert_world : World :=
  mkWorld 10000000 None (Some 50000000%N)
    (Some (foreignError "remote error: handshake failure")) sample_log true sample_decoder.

(** The handshake never returns. *)
Definition hung_world : World :=
  mkWorld 10000000 None None None sample_log true sample_decoder.

(** A server name fixed in the options, TLS 1.1 to TLS 1.2, verification on. *)
Definition pinned_options : clients.Options :=
  clients.mkOptions 2 "internal.example" "tls11" "tls12" true true.
Definition pinned_client : Client := mkClient {| net.Timeout := 2000000000 |} 1%positive.
Definition pinned_rt : Runtime := snd (New pinned_options rt_init).

(** ** Auxiliary facts *)

Local Arguments versionToTLSVersionString : simpl never.
Local Arguments versionStringToTLSVersion : simpl never.

Ltac run :=
  unfold Connect, Connect_connected, New, set_version, defer, bind, ret, var_errChannel,
    make_chan, AfterFunc, Dial, tls_Client, emit, load, alloc, modify, Handshake,
    go_Handshake, recv, GetHandshakeLog in *.

(** Every path of [Connect]: the timeout, the dial, the configuration
    object, the server name, the race and what the handshake returned. *)
Ltac connect_cases w c rt :=
  let t := fresh "t" in let h := fresh "h" in
  let ch := fresh "ch" in let tr := fresh "tr" in
  destruct rt as [t h ch tr]; run; cbn;
  destruct (decide (net.Timeout (dialer c) ≠ 0%Z));
  destruct (decide (net.Timeout (dialer c) = 0%Z)); try congruence; cbn;
  (destruct (dial_result w) as [?|] eqn:?; cbn;
   [ | destruct (h !! tlsConfig c) as [?cfg|] eqn:?; cbn;
       [ destruct (decide (tls.ServerName cfg = "")); cbn; rewrite ?lookup_insert_eq; cbn;
         destruct (hs_latency w) eqn:?; cbn;
         try (destruct (timer_first w _ _) eqn:?; cbn);
         try (destruct (hs_result w) as [[]|] eqn:?; cbn);
         repeat (case_decide; simplify_eq; cbn) | ] ]).

Lemma fold_append_Chain {A} (f : A -> clients.CertificateResponse) l r :
  fold_left (fun response cert => append_Chain response (f cert)) l r
  = clients.mkResponse (clients.Host r) (clients.Port r) (clients.Version r)
      (clients.TLSConnection r) (clients.Leaf r) (clients.Chain r ++ map f l).
Proof.
  revert r. induction l as [|x l IH]; intros r; simpl.
  - rewrite app_nil_r. by destruct r.
  - rewrite IH. unfold append_Chain. simpl. by rewrite <- app_assoc.
Qed.

(** The value [Connect] returns, path by path. *)
Lemma Connect_fst w c hostname port rt :
  fst (Connect w c hostname port rt) =
  match dial_result w with
  | Some e => Done (None, Some (withMessage e "could not connect to address"))
  | None =>
      match heap rt !! tlsConfig c with
      | None => Panic
      | Some _ =>
          match observe w c rt with
          | Done None | Done (Some ErrCertsOnly) =>
              Done (Some (response_of w hostname port), None)
          | Done (Some e) => Done (None, Some (withMessage e "could not do tls handshake"))
          | Hang => Hang
          | Panic => Panic
          end
      end
  end.
Proof.
  unfold observe, timer_due, hs_due, response_of, extract.
  connect_cases w c rt; try done; by rewrite fold_append_Chain.
Qed.

(** The objects in memory after [Connect]. *)
Lemma Connect_heap w c hostname port rt :
  heap (snd (Connect w c hostname port rt)) =
  match dial_result w, heap rt !! tlsConfig c with
  | None, Some cfg =>
      if decide (tls.ServerName cfg = "")
      then <[fresh (dom (heap rt)) := set_ServerName (hostnameValue_of hostname port) cfg]> (heap rt)
      else heap rt
  | _, _ => heap rt
  end.
Proof.
  unfold hostnameValue_of.
  connect_cases w c rt; try done; by rewrite insert_insert_eq.
Qed.

(** The events of [Connect]. *)
Lemma Connect_trace w c hostname port rt :
  trace (snd (Connect w c hostname port rt)) =
  trace rt ++ dial_events c hostname port ++
  match dial_result w with
  | Some _ => []
  | None =>
      match heap rt !! tlsConfig c with
      | None => [EvClose]
      | Some _ =>
          EvTLSClient (tlsConfig c) ::
          (if decide (net.Timeout (dialer c) = 0%Z) then [EvHandshake]
           else [EvGoHandshake; EvRecv]) ++
          match observe w c rt with
          | Done None | Done (Some ErrCertsOnly) => [EvGetHandshakeLog; EvClose]
          | Done (Some _) => [EvClose]
          | Hang => []
          | Panic => [EvClose]
          end
      end
  end.
Proof.
  unfold observe, timer_due, hs_due, dial_events.
  connect_cases w c rt; repeat (case_decide; simplify_eq; cbn); try congruence;
    by rewrite <- ?app_assoc.
Qed.

(** The local channel when the dial has failed. *)
Lemma Connect_chan_dial_failed w c hostname port rt e :
  dial_result w = Some e →
  errChannel (snd (Connect w c hostname port rt)) =
  if decide (net.Timeout (dialer c) ≠ 0%Z)
  then Some (mkChan 2 [] (Some (timer_due c rt)) None)
  else None.
Proof.
  intros Hd. unfold timer_due. destruct rt as [t h ch tr]; run; cbn. rewrite Hd.
  by case_decide.
Qed.

(** The local channel when no timeout is configured. *)
Lemma Connect_chan_sync w c hostname port rt :
  net.Timeout (dialer c) = 0%Z →
  errChannel (snd (Connect w c hostname port rt)) = None.
Proof.
  intros Hz. connect_cases w c rt; try congruence; done.
Qed.

(** With a timer running, [Connect] is back when the dial is over or when
    the timer is due, whichever is later. *)
Lemma Connect_now w c hostname port rt :
  net.Timeout (dialer c) ≠ 0%Z →
  (now (snd (Connect w c hostname port rt))
   ≤ Z.max (now rt + Z.of_N (dial_latency w)) (timer_due c rt))%Z.
Proof.
  intros Hz. unfold timer_due.
  connect_cases w c rt; try congruence; try lia.
  all: match goal with
       | H : timer_first _ _ _ = false |- _ =>
           unfold timer_first in H; apply orb_false_elim in H as [H _];
           apply Z.ltb_ge in H; lia
       end.
Qed.

Lemma lookup_token_None (s : string) :
  versionStringToTLSVersion !! s = None ↔ ¬ known_token s.
Proof.
  unfold versionStringToTLSVersion, known_token.
  rewrite <- not_elem_of_list_to_map. done.
Qed.

Lemma version_token (v : Z) :
  map_index versionToTLSVersionString v =
  if decide (v = tls.VersionSSL30) then "ssl30"
  else if decide (v = tls.VersionTLS10) then "tls10"
  else if decide (v = tls.VersionTLS11) then "tls11"
  else if decide (v = tls.VersionTLS12) then "tls12"
  else "".
Proof.
  unfold map_index, versionToTLSVersionString. cbn [list_to_map foldr fst snd uncurry].
  repeat case_decide; subst; simplify_map_eq; try done.
Qed.

(** Every path of [New]. *)
Ltac new_cases options rt :=
  let t := fresh "t" in let h := fresh "h" in
  let ch := fresh "ch" in let tr := fresh "tr" in
  destruct rt as [t h ch tr]; run; cbn;
  destruct (decide (clients.ServerName options ≠ "")); cbn; rewrite ?lookup_insert_eq; cbn;
  (destruct (decide (clients.MinVersion options ≠ "")); cbn;
   [ destruct (versionStringToTLSVersion !! clients.MinVersion options) eqn:?; cbn;
     rewrite ?lookup_insert_eq; cbn | ]);
  try (destruct (decide (clients.MaxVersion options ≠ "")); cbn;
       [ destruct (versionStringToTLSVersion !! clients.MaxVersion options) eqn:?; cbn;
         rewrite ?lookup_insert_eq; cbn | ]).

(** A client that [New] returns has its configuration object. *)
Lemma New_live options rt c e :
  fst (New options rt) = Done (Some c, e) → live c (snd (New options rt)).
Proof.
  unfold live. new_cases options rt; intros; simplify_eq; cbn; rewrite ?lookup_insert_eq; eauto.
Qed.

(** ** Client configuration *)

(** C4: [New] refuses a supplied version token that is not in the version
    table: it returns no client and an error whose message is the fixed text
    followed by the offending token, the minimum being looked at first.  When
    both tokens are empty or in the table, [New] returns a client and no
    error. *)
Theorem New_version_tokens (options : clients.Options) (rt : Runtime) :
  let min := clients.MinVersion options in
  let max := clients.MaxVersion options in
  (invalid_token min →
     fst (New options rt)
     = Done (None, Some (errorString ("invalid min version specified: " +:+ min))))
  ∧ (¬ invalid_token min → invalid_token max →
     fst (New options rt)
     = Done (None, Some (errorString ("invalid max version specified: " +:+ max))))
  ∧ (¬ invalid_token min → ¬ invalid_token max →
     ∃ c : Client, fst (New options rt) = Done (Some c, None)).
Proof.
  cbn zeta. unfold invalid_token, fmt.Errorf.
  repeat split.
  - intros [Hne Hk]. apply lookup_token_None in Hk.
    new_cases options rt; first [done | congruence | contradiction].
  - intros Hmin [Hne Hk]. apply lookup_token_None in Hk.
    new_cases options rt; try first [done | congruence | contradiction].
    all: exfalso; apply Hmin; split; [done | by apply lookup_token_None].
  - intros Hmin Hmax.
    new_cases options rt; eauto; try first [done | congruence | contradiction].
    all: exfalso;
      first [ solve [apply Hmin; split; [done | by apply lookup_token_None]]
            | solve [apply Hmax; split; [done | by apply lookup_token_None]] ].
Qed.

Lemma New_version_tokens_witness :
  fst (New (clients.mkOptions 1 "" "bogus" "" false false) rt_init)
  = Done (None, Some (errorString "invalid min version specified: bogus"))
  ∧ fst (New (clients.mkOptions 1 "" "tls10" "tls13" false false) rt_init)
  = Done (None, Some (errorString "invalid max version specified: tls13"))
  ∧ ∃ c : Client, fst (New (clients.mkOptions 1 "" "tls10" "" false false) rt_init)
                  = Done (Some c, None).
Proof.
  assert (Hbad : ∀ s, bool_decide (s ≠ "" ∧ s ∉ ["ssl30"; "tls10"; "tls11"; "tls12"]) = true →
                      invalid_token s).
  { intros s H. apply bool_decide_eq_true_1 in H. exact H. }
  assert (Hok : ∀ s, bool_decide (s = "" ∨ s ∈ ["ssl30"; "tls10"; "tls11"; "tls12"]) = true →
                     ¬ invalid_token s).
  { intros s H [Hne Hk]. apply bool_decide_eq_true_1 in H. destruct H; [done | by apply Hk]. }
  split; [| split].
  - apply (proj1 (New_version_tokens (clients.mkOptions 1 "" "bogus" "" false false) rt_init)).
    apply Hbad. vm_compute. reflexivity.
  - apply (proj1 (proj2 (New_version_tokens
                           (clients.mkOptions 1 "" "tls10" "tls13" false false) rt_init))).
    + apply Hok. vm_compute. reflexivity.
    + apply Hbad. vm_compute. reflexivity.
  - apply (proj2 (proj2 (New_version_tokens
                           (clients.mkOptions 1 "" "tls10" "" false false) rt_init))).
    + apply Hok. vm_compute. reflexivity.
    + apply Hok. vm_compute. reflexivity.
Defined.

(** ** Certificate extraction *)

(** The pipeline on bytes the decoder refuses, and on bytes it accepts. *)
Lemma extract_failed w cert e :
  ParseCertificate w (tls.Raw cert) = inr e →
  convertCertificateToResponse (parseSimpleTLSCertificate w cert)
  = clients.zero_CertificateResponse.
Proof. unfold parseSimpleTLSCertificate. by intros ->. Qed.

Lemma extract_parsed w cert parsed :
  ParseCertificate w (tls.Raw cert) = inl parsed →
  convertCertificateToResponse (parseSimpleTLSCertificate w cert)
  = clients.mkCertificateResponse
      (x509.DNSNames parsed) (x509.EmailAddresses parsed)
      (pkix.CommonName (x509.Issuer parsed)) (pkix.Organization (x509.Issuer parsed))
      (pkix.CommonName (x509.Subject parsed)) (pkix.Organization (x509.Subject parsed)).
Proof. unfold parseSimpleTLSCertificate. by intros ->. Qed.

(** C8: when the X.509 decoder fails on the raw bytes, the extraction
    pipeline gives the zero-value record, and nothing else reaches the
    caller; when the decoder succeeds, the record carries the DNS names, the
    email addresses, and the common name and organization of issuer and
    subject of the decoded certificate. *)
Theorem extract_certificate (w : World) (cert : tls.SimpleCertificate) :
  (∀ e, ParseCertificate w (tls.Raw cert) = inr e →
        convertCertificateToResponse (parseSimpleTLSCertificate w cert)
        = clients.mkCertificateResponse [] [] "" [] "" [])
  ∧ (∀ parsed, ParseCertificate w (tls.Raw cert) = inl parsed →
        convertCertificateToResponse (parseSimpleTLSCertificate w cert)
        = clients.mkCertificateResponse
            (x509.DNSNames parsed) (x509.EmailAddresses parsed)
            (pkix.CommonName (x509.Issuer parsed)) (pkix.Organization (x509.Issuer parsed))
            (pkix.CommonName (x509.Subject parsed)) (pkix.Organization (x509.Subject parsed))).
Proof.
  split; [apply extract_failed | apply extract_parsed].
Qed.

Lemma extract_certificate_witness :
  convertCertificateToResponse (parseSimpleTLSCertificate fast_world bad_raw)
  = clients.mkCertificateResponse [] [] "" [] "" []
  ∧ convertCertificateToResponse (parseSimpleTLSCertificate fast_world good_raw)
    = clients.mkCertificateResponse
        ["example.com"; "www.example.com"] ["admin@example.com"]
        "Example CA" ["Example Trust"] "example.com" ["Example Inc"].
Proof.
  split.
  - apply (proj1 (extract_certificate fast_world bad_raw)
             (foreignError "x509: malformed certificate")).
    reflexivity.
  - apply (proj2 (extract_certificate fast_world good_raw) sample_certificate).
    reflexivity.
Defined.

(** ** The connector *)

(** What a successful [Connect] returns. *)
Lemma Connect_success_inv w c hostname port rt response e :
  fst (Connect w c hostname port rt) = Done (Some response, e) →
  response = response_of w hostname port ∧ e = None.
Proof.
  rewrite Connect_fst.
  destruct (dial_result w); [done |].
  destruct (heap rt !! tlsConfig c); [| done].
  destruct (observe w c rt) as [[[]|]| |]; intros; by simplify_eq.
Qed.

(** C6: when the dial fails, [Connect] returns no response and the dial
    error annotated with "could not connect to address"; nothing is asked of
    the handshake engine: the events of the call stop at the dial. *)
Theorem Connect_dial_failure w c hostname port rt (e : error) :
  dial_result w = Some e →
  fst (Connect w c hostname port rt)
  = Done (None, Some (withMessage e "could not connect to address"))
  ∧ errors.Cause (withMessage e "could not connect to address") = errors.Cause e
  ∧ trace (snd (Connect w c hostname port rt)) = trace rt ++ dial_events c hostname port
  ∧ Forall (λ ev, engine_event ev = false) (dial_events c hostname port).
Proof.
  intros Hd. rewrite Connect_fst, Connect_trace, Hd, app_nil_r.
  repeat split.
  unfold dial_events. case_decide; repeat constructor.
Qed.

Lemma Connect_dial_failure_witness :
  fst (Connect refused_world sample_client "192.0.2.1" "443" sample_rt)
  = Done (None, Some (withMessage
                        (foreignError "dial tcp 192.0.2.1:443: connect: connection refused")
                        "could not connect to address"))
  ∧ trace (snd (Connect refused_world sample_client "192.0.2.1" "443" sample_rt))
    = [EvMakeChan 2; EvAfterFunc 1000000000; EvDial "tcp" "192.0.2.1:443"].
Proof.
  pose proof (Connect_dial_failure refused_world sample_client "192.0.2.1" "443" sample_rt
                (foreignError "dial tcp 192.0.2.1:443: connect: connection refused")
                eq_refl) as (H1 & _ & H3 & _).
  split; [exact H1 | exact H3].
Defined.

(** C7: the chain of a successful response has one record per certificate
    of the handshake log's chain, the i-th record being the extraction of the
    i-th raw certificate. *)
Theorem Connect_chain_order w c hostname port rt (response : clients.Response) :
  fst (Connect w c hostname port rt) = Done (Some response, None) →
  length (clients.Chain response) = length (tls.ServerCertificates_Chain (hs_log w))
  ∧ ∀ i : nat,
      clients.Chain response !! i
      = (λ cert, convertCertificateToResponse (parseSimpleTLSCertificate w cert))
          <$> tls.ServerCertificates_Chain (hs_log w) !! i.
Proof.
  intros H. apply Connect_success_inv in H as [-> _]. cbn. split.
  - apply length_map.
  - intros i. apply list_lookup_fmap.
Qed.

Lemma Connect_chain_order_witness :
  ∃ response,
    fst (Connect fast_world sample_client "example.com" "443" sample_rt)
    = Done (Some response, None)
    ∧ length (clients.Chain response) = 2
    ∧ clients.Chain response !! 1%nat
      = Some (convertCertificateToResponse (parseSimpleTLSCertificate fast_world bad_raw)).
Proof.
  eexists. split; [vm_compute; reflexivity |].
  pose proof (Connect_chain_order fast_world sample_client "example.com" "443" sample_rt _
                ltac:(vm_compute; reflexivity)) as [Hlen Hnth].
  split; [exact Hlen | exact (Hnth 1%nat)].
Defined.

(** Whether [Connect] succeeds does not depend on the version the server
    chose. *)
Lemma Connect_success_any_version w c hostname port rt response v :
  fst (Connect w c hostname port rt) = Done (Some response, None) →
  fst (Connect (with_ServerHello_Version w v) c hostname port rt)
  = Done (Some (response_of (with_ServerHello_Version w v) hostname port), None).
Proof.
  rewrite !Connect_fst. unfold observe. cbn.
  destruct (dial_result w); [done |].
  destruct (heap rt !! tlsConfig c); [| done].
  case_decide; destruct (hs_latency w); try done;
    try destruct (timer_first _ _ _); try done;
    destruct (hs_result w) as [[]|]; done.
Qed.

(** C5: the version of a successful response is the version table's token
    for the ServerHello version of the handshake log, taken as a uint16: the
    four known numbers give their tokens and every other number gives the
    empty string, the call succeeding all the same. *)
Theorem Connect_version w c hostname port rt (response : clients.Response) :
  fst (Connect w c hostname port rt) = Done (Some response, None) →
  clients.Version response
  = map_index versionToTLSVersionString (uint16 (tls.ServerHello_Version (hs_log w)))
  ∧ ∀ v : Z, ∃ response',
      fst (Connect (with_ServerHello_Version w v) c hostname port rt)
      = Done (Some response', None)
      ∧ (uint16 v = tls.VersionSSL30 → clients.Version response' = "ssl30")
      ∧ (uint16 v = tls.VersionTLS10 → clients.Version response' = "tls10")
      ∧ (uint16 v = tls.VersionTLS11 → clients.Version response' = "tls11")
      ∧ (uint16 v = tls.VersionTLS12 → clients.Version response' = "tls12")
      ∧ (uint16 v ∉ [tls.VersionSSL30; tls.VersionTLS10; tls.VersionTLS11; tls.VersionTLS12] →
         clients.Version response' = "").
Proof.
  intros H. split.
  - by apply Connect_success_inv in H as [-> _].
  - intros v. eexists. split; [by eapply Connect_success_any_version |].
    cbn. rewrite version_token.
    repeat split; intros Hv.
    1-4: by rewrite Hv.
    repeat case_decide; try done; exfalso; apply Hv; set_solver.
Qed.

Lemma Connect_version_witness :
  ∃ response,
    fst (Connect fast_world sample_client "example.com" "443" sample_rt)
    = Done (Some response, None)
    ∧ clients.Version response = "tls12"
    ∧ ∃ response',
        fst (Connect (with_ServerHello_Version fast_world 0x0304) sample_client
               "example.com" "443" sample_rt)
        = Done (Some response', None)
        ∧ clients.Version response' = "".
Proof.
  eexists. split; [vm_compute; reflexivity |].
  pose proof (Connect_version fast_world sample_client "example.com" "443" sample_rt _
                ltac:(vm_compute; reflexivity)) as [Hv Hany].
  split; [exact Hv |].
  destruct (Hany 0x0304%Z) as (r' & Hr' & _ & _ & _ & _ & Hnone).
  exists r'. split; [exact Hr' |].
  apply Hnone. vm_compute. intros Hin.
  repeat (apply elem_of_cons in Hin as [Hin | Hin]; [discriminate Hin |]).
  by apply elem_of_nil in Hin.
Defined.

(** C3: when the value [Connect] gets from the handshake is the engine's
    certs-only sentinel, the call succeeds: it returns a response and no
    error, and the leaf of the response is the extraction of the leaf
    certificate of the handshake log (the decoded fields when the decoder
    accepts it). *)
Theorem Connect_certs_only w c hostname port rt :
  live c rt →
  dial_result w = None →
  handshake_returns_first w c rt →
  hs_result w = Some ErrCertsOnly →
  ∃ response : clients.Response,
    fst (Connect w c hostname port rt) = Done (Some response, None)
    ∧ clients.Leaf response
      = convertCertificateToResponse
          (parseSimpleTLSCertificate w (tls.ServerCertificates_Certificate (hs_log w)))
    ∧ ∀ parsed,
        ParseCertificate w (tls.Raw (tls.ServerCertificates_Certificate (hs_log w)))
        = inl parsed →
        clients.Leaf response
        = clients.mkCertificateResponse
            (x509.DNSNames parsed) (x509.EmailAddresses parsed)
            (pkix.CommonName (x509.Issuer parsed)) (pkix.Organization (x509.Issuer parsed))
            (pkix.CommonName (x509.Subject parsed)) (pkix.Organization (x509.Subject parsed)).
Proof.
  intros [cfg Hcfg] Hd Hfirst Hres.
  exists (response_of w hostname port). split; [| split].
  - rewrite Connect_fst, Hd, Hcfg. unfold observe.
    unfold handshake_returns_first in Hfirst.
    destruct (hs_latency w) as [d|]; [| done].
    case_decide.
    + by rewrite Hres.
    + destruct Hfirst as [? | ->]; [done |]. by rewrite Hres.
  - reflexivity.
  - intros parsed Hp. cbn. unfold extract.
    by apply extract_parsed.
Qed.

Lemma Connect_certs_only_witness :
  ∃ response : clients.Response,
    fst (Connect certs_only_world sample_client "example.com" "443" sample_rt)
    = Done (Some response, None)
    ∧ clients.Leaf response
      = clients.mkCertificateResponse
          ["example.com"; "www.example.com"] ["admin@example.com"]
          "Example CA" ["Example Trust"] "example.com" ["Example Inc"].
Proof.
  destruct (Connect_certs_only certs_only_world sample_client "example.com" "443" sample_rt)
    as (r & Hr & _ & Hleaf).
  - vm_compute. eexists. reflexivity.
  - reflexivity.
  - right. vm_compute. reflexivity.
  - reflexivity.
  - exists r. split; [exact Hr |]. apply (Hleaf sample_certificate). reflexivity.
Defined.

(** C9: [Connect] leaves the client's configuration object as it was: the
    memory after the call holds every object of the memory before it,
    unchanged, and at most one more, the copy that carries the derived server
    name, at an address that was unused. *)
Theorem Connect_base_config_unchanged w c hostname port rt :
  let rt' := snd (Connect w c hostname port rt) in
  let q : loc := fresh (dom (heap rt)) in
  heap rt' !! tlsConfig c = heap rt !! tlsConfig c
  ∧ heap rt ⊆ heap rt'
  ∧ (heap rt' = heap rt
     ∨ ∃ cfg, heap rt !! tlsConfig c = Some cfg
              ∧ tls.ServerName cfg = ""
              ∧ heap rt !! q = None
              ∧ heap rt' = <[q := set_ServerName (hostnameValue_of hostname port) cfg]> (heap rt)).
Proof.
  cbn zeta. rewrite Connect_heap.
  pose proof (is_fresh (dom (heap rt))) as Hfresh. apply not_elem_of_dom in Hfresh.
  destruct (dial_result w); [by auto |].
  destruct (heap rt !! tlsConfig c) as [cfg|] eqn:Hcfg; [| by auto].
  case_decide; [| by auto].
  split; [| split].
  - rewrite lookup_insert_ne; [done |].
    intros Heq. rewrite Heq in Hfresh. congruence.
  - by apply insert_subseteq.
  - right. by exists cfg.
Qed.

(** Whatever the world answers, the only configuration object [Connect]
    hands to the handshake engine is the client's own. *)
Lemma Connect_engine_configs w c hostname port rt :
  ∃ evs, trace (snd (Connect w c hostname port rt)) = trace rt ++ evs
         ∧ (engine_configs evs = [] ∨ engine_configs evs = [tlsConfig c]).
Proof.
  rewrite Connect_trace. eexists. split; [done |].
  unfold engine_configs, dial_events. rewrite !omap_app.
  destruct (dial_result w); [left; by case_decide |].
  destruct (heap rt !! tlsConfig c); [right | left; by case_decide].
  cbn. rewrite omap_app.
  repeat case_decide; try done; destruct (observe w c rt) as [[[]|]| |]; done.
Qed.

(** C1 fails on the code: with no server name in the client's configuration,
    [Connect] to example.com:443 derives the name example.com and stores it
    in a copy, yet the one configuration handed to the handshake engine is
    the client's own object, whose server name is still empty. *)
Theorem Connect_server_name_not_passed :
  let rt' := snd (Connect fast_world sample_client "example.com" "443" sample_rt) in
  fst (New sample_options rt_init) = Done (Some sample_client, None)
  ∧ tls.ServerName <$> (heap sample_rt !! tlsConfig sample_client) = Some ""
  ∧ hostnameValue_of "example.com" "443" = "example.com"
  ∧ engine_configs (trace rt') = [tlsConfig sample_client]
  ∧ tls.ServerName <$> (heap rt' !! tlsConfig sample_client) = Some ""
  ∧ tls.ServerName <$> (heap rt' !! 2%positive) = Some "example.com".
Proof. vm_compute. repeat split; reflexivity. Qed.

(** C2 as stated fails: with one second of timeout, a dial of 10ms and a
    handshake that needs two seconds, the timer fires first, and the error
    [Connect] returns is not of type timeoutError and has no Timeout or
    Temporary method: it is the annotated value errors.Wrap makes. *)
Lemma Connect_timeout_counterexample :
  live sample_client sample_rt
  ∧ net.Timeout (dialer sample_client) ≠ 0%Z
  ∧ dial_result slow_world = None
  ∧ timeout_fires_first slow_world sample_client sample_rt
  ∧ fst (Connect slow_world sample_client "example.com" "443" sample_rt)
    = Done (None, Some (withMessage timeoutError "could not do tls handshake"))
  ∧ ¬ ∃ e : error,
        fst (Connect slow_world sample_client "example.com" "443" sample_rt)
        = Done (None, Some e)
        ∧ is_timeoutError e = true
        ∧ Timeout_of e = Some true
        ∧ Temporary_of e = Some true.
Proof.
  split; [by eexists |].
  split; [done |].
  split; [done |].
  split; [by vm_compute |].
  split; [by vm_compute |].
  intros (e & He & Hty & _). vm_compute in He. by simplify_eq.
Qed.

(** C2, amended: after a successful dial with a timeout configured, when the
    timer fires before the handshake has completed, [Connect] returns no
    response and the timeoutError value annotated with "could not do tls
    handshake"; the cause of the returned error is the timeoutError, whose
    Timeout and Temporary markers are both true. *)
Theorem Connect_timeout w c hostname port rt :
  live c rt →
  net.Timeout (dialer c) ≠ 0%Z →
  dial_result w = None →
  timeout_fires_first w c rt →
  fst (Connect w c hostname port rt)
  = Done (None, Some (withMessage timeoutError "could not do tls handshake"))
  ∧ errors.Cause (withMessage timeoutError "could not do tls handshake") = timeoutError
  ∧ is_timeoutError timeoutError = true
  ∧ Timeout_of timeoutError = Some true
  ∧ Temporary_of timeoutError = Some true.
Proof.
  intros [cfg Hcfg] Hz Hd Hfirst. repeat split.
  rewrite Connect_fst, Hd, Hcfg. unfold observe, timeout_fires_first in *.
  case_decide; [done |].
  destruct (hs_latency w); [by rewrite Hfirst | done].
Qed.

Lemma Connect_timeout_witness :
  fst (Connect slow_world sample_client "example.com" "443" sample_rt)
  = Done (None, Some (withMessage timeoutError "could not do tls handshake")).
Proof.
  apply (Connect_timeout slow_world sample_client "example.com" "443" sample_rt).
  - vm_compute. eexists. reflexivity.
  - vm_compute. discriminate.
  - reflexivity.
  - vm_compute. reflexivity.
Defined.

(** ** The timeout window *)

(** C10: with a timeout configured, the timer is armed before the dial is
    made, so its deadline counts from the start of the call: [Connect] is
    back when the dial is over or the deadline is reached, whichever is
    later; a handshake that needs more than what the dial has left of the
    window is cut off by the timeout, one that needs less is not; and when
    the dial fails the timer stays armed and its value is written into the
    channel, which holds it.  With no timeout configured there is no channel
    and no timer, and the handshake is called in the caller's goroutine. *)
Theorem Connect_timer_before_dial w c hostname port rt :
  let timeout := net.Timeout (dialer c) in
  let address := net.JoinHostPort hostname port in
  let result := fst (Connect w c hostname port rt) in
  let rt' := snd (Connect w c hostname port rt) in
  let window := Z.max 0 timeout in
  let timed_out : outcome (option clients.Response * option error) :=
    Done (None, Some (withMessage timeoutError "could not do tls handshake")) in
  (timeout ≠ 0%Z →
     (∃ rest, trace rt'
              = trace rt ++ [EvMakeChan 2; EvAfterFunc timeout; EvDial "tcp" address] ++ rest)
     ∧ (now rt' ≤ Z.max (now rt + Z.of_N (dial_latency w)) (now rt + window))%Z
     ∧ (∀ d : N, live c rt → dial_result w = None → hs_latency w = Some d →
          ((window - Z.of_N (dial_latency w) < Z.of_N d)%Z → result = timed_out)
          ∧ ((Z.of_N d < window - Z.of_N (dial_latency w))%Z →
             hs_result w ≠ Some timeoutError → result ≠ timed_out))
     ∧ (∀ e : error, dial_result w = Some e →
          ∃ ch : chan,
            errChannel rt' = Some ch
            ∧ timer_at ch = Some (now rt + window)%Z
            ∧ settle w ch = [Some timeoutError]
            ∧ (length (settle w ch) ≤ cap ch)%nat))
  ∧ (timeout = 0%Z →
     errChannel rt' = None
     ∧ ∃ evs, trace rt' = trace rt ++ evs
              ∧ Forall (λ ev, race_event ev = false) evs
              ∧ (live c rt → dial_result w = None → EvHandshake ∈ evs)).
Proof.
  cbn zeta. split.
  - intros Hz. split; [| split; [| split]].
    + rewrite Connect_trace. unfold dial_events. case_decide; [| done]. cbn. eauto.
    + by apply Connect_now.
    + intros d [cfg Hcfg] Hd Hlat. rewrite Connect_fst, Hd, Hcfg.
      unfold observe, timer_first, timer_due, hs_due. rewrite Hlat.
      case_decide; [done |]. split.
      * intros Hlt.
        replace (_ <? _)%Z with true; [done |]. symmetry. apply Z.ltb_lt. lia.
      * intros Hlt Hres.
        replace (_ <? _)%Z with false by (symmetry; apply Z.ltb_ge; lia).
        replace (_ =? _)%Z with false by (symmetry; apply Z.eqb_neq; lia).
        cbn. destruct (hs_result w) as [[]|]; congruence.
    + intros e Hd. rewrite (Connect_chan_dial_failed _ _ _ _ _ e Hd).
      case_decide; [| done]. eexists. split; [done |]. cbn. repeat split. lia.
  - intros Hz. split; [by apply Connect_chan_sync |].
    rewrite Connect_trace. eexists. split; [done |].
    unfold dial_events. repeat case_decide; try done. cbn. split.
    + destruct (dial_result w); [by repeat constructor |].
      destruct (heap rt !! tlsConfig c); [| by repeat constructor].
      destruct (observe w c rt) as [[[]|]| |]; by repeat constructor.
    + intros [cfg Hcfg] Hd. rewrite Hd, Hcfg. set_solver.
Qed.

Lemma Connect_timer_before_dial_witness :
  fst (Connect slow_world sample_client "example.com" "443" sample_rt)
  = Done (None, Some (withMessage timeoutError "could not do tls handshake"))
  ∧ (∃ ch : chan,
       errChannel (snd (Connect refused_world sample_client "192.0.2.1" "443" sample_rt))
       = Some ch
       ∧ settle refused_world ch = [Some timeoutError])
  ∧ errChannel (snd (Connect fast_world sync_client "example.com" "443" sync_rt)) = None.
Proof.
  split; [| split].
  - destruct (Connect_timer_before_dial slow_world sample_client "example.com" "443" sample_rt)
      as [Htimed _].
    destruct (Htimed ltac:(vm_compute; discriminate)) as (_ & _ & Hbudget & _).
    destruct (Hbudget 2000000000%N ltac:(vm_compute; eexists; reflexivity) eq_refl eq_refl)
      as [Hcut _].
    apply Hcut. vm_compute. reflexivity.
  - destruct (Connect_timer_before_dial refused_world sample_client "192.0.2.1" "443"
                sample_rt) as [Htimed _].
    destruct (Htimed ltac:(vm_compute; discriminate)) as (_ & _ & _ & Hfail).
    destruct (Hfail _ eq_refl) as (ch & Hch & _ & Hsettle & _).
    exists ch. split; [exact Hch | exact Hsettle].
  - destruct (Connect_timer_before_dial fast_world sync_client "example.com" "443" sync_rt)
      as [_ Hsync].
    destruct (Hsync eq_refl) as [Hnone _]. exact Hnone.
Defined.

(** ** Further properties: the version table and [New] *)

(** X1: the two version tables are inverse to each other: a token maps to a
    number exactly when the number maps back to the token. *)
Theorem version_tables_inverse (s : string) (v : Z) :
  versionStringToTLSVersion !! s = Some v ↔ versionToTLSVersionString !! v = Some s.
Proof.
  unfold versionStringToTLSVersion, versionToTLSVersionString.
  cbn [list_to_map foldr fst snd uncurry].
  split; intros H.
  - repeat (apply lookup_insert_Some in H as [[<- <-] | [_ H]]; [by vm_compute |]).
    by rewrite lookup_empty in H.
  - repeat (apply lookup_insert_Some in H as [[<- <-] | [_ H]]; [by vm_compute |]).
    by rewrite lookup_empty in H.
Qed.

(** What [New] leaves behind when it returns a client. *)
Lemma New_success_inv options rt c e :
  fst (New options rt) = Done (Some c, e) →
  e = None
  ∧ c = mkClient
          {| net.Timeout := int64 (int64 (clients.Timeout options) * time.Second) |}
          (fresh (dom (heap rt)))
  ∧ heap (snd (New options rt))
    = <[fresh (dom (heap rt)) :=
          tls.mkConfig (clients.ServerName options)
            (version_or tls.VersionSSL30 (clients.MinVersion options))
            (version_or tls.VersionTLS12 (clients.MaxVersion options))
            (clients.CertsOnly options)
            (negb (clients.VerifyServerCertificate options))]> (heap rt).
Proof.
  assert (Hempty : versionStringToTLSVersion !! "" = None) by by vm_compute.
  unfold version_or.
  new_cases options rt; intros; simplify_eq; cbn; repeat split;
    rewrite ?insert_insert_eq; unfold set_ServerName, set_MinVersion, set_MaxVersion; cbn;
    repeat match goal with
           | H : ¬ (?x ≠ "") |- _ => apply dec_stable in H; rewrite H in *
           end;
    repeat match goal with
           | H : _ !! _ = Some _ |- _ => rewrite H
           end;
    rewrite ?Hempty; cbn; try done.
Qed.

(** X2: the configuration of a client [New] returns carries the server name
    of the options (empty when none was given), the certs-only flag as given,
    verification skipped exactly when it was not asked for, and as version
    bounds the table's numbers for the supplied tokens, SSL 3.0 and TLS 1.2
    standing in for an empty minimum and maximum. *)
Theorem New_config options rt c :
  fst (New options rt) = Done (Some c, None) →
  ∃ cfg : tls.Config,
    heap (snd (New options rt)) !! tlsConfig c = Some cfg
    ∧ tls.ServerName cfg = clients.ServerName options
    ∧ tls.CertsOnly cfg = clients.CertsOnly options
    ∧ tls.InsecureSkipVerify cfg = negb (clients.VerifyServerCertificate options)
    ∧ (clients.MinVersion options = "" → tls.MinVersion cfg = tls.VersionSSL30)
    ∧ (clients.MaxVersion options = "" → tls.MaxVersion cfg = tls.VersionTLS12)
    ∧ (∀ v, versionStringToTLSVersion !! clients.MinVersion options = Some v →
            tls.MinVersion cfg = v)
    ∧ (∀ v, versionStringToTLSVersion !! clients.MaxVersion options = Some v →
            tls.MaxVersion cfg = v).
Proof.
  intros H. apply New_success_inv in H as (_ & -> & ->). cbn.
  eexists. split; [apply lookup_insert_eq |]. cbn. unfold version_or.
  repeat split.
  - by intros ->.
  - by intros ->.
  - by intros v ->.
  - by intros v ->.
Qed.

Lemma New_config_witness :
  ∃ cfg : tls.Config,
    heap pinned_rt !! tlsConfig pinned_client = Some cfg
    ∧ tls.ServerName cfg = "internal.example"
    ∧ tls.InsecureSkipVerify cfg = false
    ∧ tls.MinVersion cfg = tls.VersionTLS11
    ∧ tls.MaxVersion cfg = tls.VersionTLS12.
Proof.
  destruct (New_config pinned_options rt_init pinned_client ltac:(vm_compute; reflexivity))
    as (cfg & Hcfg & Hname & _ & Hskip & _ & _ & Hmin & Hmax).
  exists cfg. split; [exact Hcfg |]. split; [exact Hname |]. split; [exact Hskip |].
  split; [apply Hmin | apply Hmax]; vm_compute; reflexivity.
Defined.

Lemma int64_id (z : Z) : int_range z → int64 z = z.
Proof. unfold int_range, int64. intros H. Z.div_mod_to_equations. lia. Qed.

Lemma int64_zero (z : Z) : int64 z = 0%Z ↔ (z mod 2 ^ 64 = 0)%Z.
Proof. unfold int64. split; intros H; Z.div_mod_to_equations; lia. Qed.

(** X3: the dial timeout of the client is the options' seconds times 10^9
    nanoseconds in 64-bit arithmetic: exact for up to 9223372036 seconds
    either way, and zero, which [Connect] takes for no timeout at all,
    exactly when the number of seconds is a multiple of 2^55. *)
Theorem New_timeout options rt c e :
  fst (New options rt) = Done (Some c, e) →
  int_range (clients.Timeout options) →
  ((-9223372036 ≤ clients.Timeout options ≤ 9223372036)%Z →
     net.Timeout (dialer c) = (clients.Timeout options * 1000000000)%Z)
  ∧ (net.Timeout (dialer c) = 0%Z ↔ (clients.Timeout options mod 2 ^ 55 = 0)%Z).
Proof.
  intros H Hr. apply New_success_inv in H as (_ & -> & _). cbn.
  rewrite (int64_id _ Hr). unfold time.Second. split.
  - intros Hs. apply int64_id. unfold int_range. lia.
  - rewrite int64_zero.
    rewrite !Z.mod_divide by lia.
    change 1000000000%Z with (2 ^ 9 * 5 ^ 9)%Z.
    change (2 ^ 64)%Z with (2 ^ 9 * 2 ^ 55)%Z.
    rewrite (Z.mul_comm (clients.Timeout options)), <- Z.mul_assoc.
    rewrite Z.mul_divide_cancel_l by lia.
    split.
    + intros Hd. apply Z.gauss with (m := (5 ^ 9)%Z); [done | by vm_compute].
    + intros Hd. by apply Z.divide_mul_r.
Qed.

Lemma New_timeout_witness :
  net.Timeout (dialer sample_client) = 1000000000%Z
  ∧ net.Timeout (dialer sample_client) ≠ 0%Z.
Proof.
  destruct (New_timeout sample_options rt_init sample_client None)
    as [Hexact Hzero].
  - vm_compute. reflexivity.
  - unfold int_range. simpl. lia.
  - split.
    + apply Hexact. simpl. lia.
    + intros H. apply Hzero in H. vm_compute in H. discriminate H.
Defined.

(** X4: [New] touches nothing that was there: the objects in memory before
    the call are unchanged, the configuration of the returned client is at an
    address that was unused, and the clock, the channel and the events are as
    before, no collaborator being called. *)
Theorem New_frame options rt :
  let rt' := snd (New options rt) in
  heap rt ⊆ heap rt'
  ∧ now rt' = now rt
  ∧ errChannel rt' = errChannel rt
  ∧ trace rt' = trace rt
  ∧ ∀ c e, fst (New options rt) = Done (Some c, e) →
           heap rt !! tlsConfig c = None ∧ is_Some (heap rt' !! tlsConfig c).
Proof.
  cbn zeta.
  pose proof (is_fresh (dom (heap rt))) as Hfresh. apply not_elem_of_dom in Hfresh.
  split; [| split; [| split; [| split]]].
  - new_cases options rt; cbn in *; rewrite ?insert_insert_eq; by apply insert_subseteq.
  - new_cases options rt; done.
  - new_cases options rt; done.
  - new_cases options rt; done.
  - intros c e H. split.
    + by apply New_success_inv in H as (_ & -> & _).
    + by apply New_live in H.
Qed.

Lemma New_frame_witness :
  heap rt_init !! tlsConfig sample_client = None
  ∧ is_Some (heap sample_rt !! tlsConfig sample_client).
Proof.
  destruct (New_frame sample_options rt_init) as (_ & _ & _ & _ & H).
  apply (H sample_client None). vm_compute. reflexivity.
Defined.

(** ** Further properties: what [Connect] returns *)

(** Membership in an explicit list of events. *)
Ltac event_not_in :=
  let H := fresh "Hin" in
  intros H;
  repeat (apply elem_of_app in H as [H | H] || apply elem_of_cons in H as [H | H]);
  first [ discriminate H | by apply elem_of_nil in H ].

(** The events of one call, path by path. *)
Lemma Connect_events_eq w c hostname port rt :
  Connect_events w c hostname port rt =
  dial_events c hostname port ++
  match dial_result w with
  | Some _ => []
  | None =>
      match heap rt !! tlsConfig c with
      | None => [EvClose]
      | Some _ =>
          EvTLSClient (tlsConfig c) ::
          (if decide (net.Timeout (dialer c) = 0%Z) then [EvHandshake]
           else [EvGoHandshake; EvRecv]) ++
          match observe w c rt with
          | Done None | Done (Some ErrCertsOnly) => [EvGetHandshakeLog; EvClose]
          | Done (Some _) => [EvClose]
          | Hang => []
          | Panic => [EvClose]
          end
      end
  end.
Proof. unfold Connect_events. rewrite Connect_trace. apply drop_app_length. Qed.

(** What the handshake step yields when the handshake's own result is the
    one that is seen. *)
Lemma observe_handshake w c rt :
  handshake_returns_first w c rt → observe w c rt = Done (hs_result w).
Proof.
  unfold handshake_returns_first, observe.
  destruct (hs_latency w); [| done].
  case_decide; [done |]. by intros [? | ->].
Qed.

(** X5: when [Connect] returns, it returns a response or an error, never
    both and never neither. *)
Theorem Connect_response_xor_error w c hostname port rt
    (r : option clients.Response) (e : option error) :
  fst (Connect w c hostname port rt) = Done (r, e) →
  (is_Some r ∧ e = None) ∨ (r = None ∧ is_Some e).
Proof.
  rewrite Connect_fst.
  destruct (dial_result w); [intros; simplify_eq; eauto |].
  destruct (heap rt !! tlsConfig c); [| done].
  destruct (observe w c rt) as [[[]|]| |]; intros; simplify_eq; eauto.
Qed.

Lemma Connect_response_xor_error_witness :
  (is_Some (Some (response_of fast_world "example.com" "443"))
   ∧ (None : option error) = None)
  ∨ (Some (response_of fast_world "example.com" "443") = None
     ∧ is_Some (None : option error)).
Proof.
  apply (Connect_response_xor_error fast_world sample_client "example.com" "443" sample_rt).
  vm_compute. reflexivity.
Defined.

(** X6: when the value [Connect] gets from the handshake is an error other
    than the certs-only sentinel, the call returns no response and that error
    annotated with "could not do tls handshake", its cause kept; the
    handshake log is not read. *)
Theorem Connect_handshake_failure w c hostname port rt (e : error) :
  live c rt →
  dial_result w = None →
  handshake_returns_first w c rt →
  hs_result w = Some e →
  e ≠ ErrCertsOnly →
  fst (Connect w c hostname port rt)
  = Done (None, Some (withMessage e "could not do tls handshake"))
  ∧ errors.Cause (withMessage e "could not do tls handshake") = errors.Cause e
  ∧ EvGetHandshakeLog ∉ Connect_events w c hostname port rt.
Proof.
  intros [cfg Hcfg] Hd Hfirst Hres Hne.
  rewrite Connect_fst, Connect_events_eq, Hd, Hcfg, (observe_handshake _ _ _ Hfirst), Hres.
  split; [by destruct e | split; [done |]].
  unfold dial_events. destruct e; try done; repeat case_decide; event_not_in.
Qed.

Lemma Connect_handshake_failure_witness :
  fst (Connect alert_world sample_client "example.com" "443" sample_rt)
  = Done (None, Some (withMessage (foreignError "remote error: handshake failure")
                        "could not do tls handshake")).
Proof.
  apply (Connect_handshake_failure alert_world sample_client "example.com" "443" sample_rt).
  - vm_compute. eexists. reflexivity.
  - reflexivity.
  - right. vm_compute. reflexivity.
  - reflexivity.
  - discriminate.
Defined.

(** X7: a successful response names the host and the port as they were
    passed to [Connect] (not the joined address), is labelled "ztls", and has
    as leaf the extraction of the leaf certificate of the handshake log. *)
Theorem Connect_response_fields w c hostname port rt (response : clients.Response) :
  fst (Connect w c hostname port rt) = Done (Some response, None) →
  clients.Host response = hostname
  ∧ clients.Port response = port
  ∧ clients.TLSConnection response = "ztls"
  ∧ clients.Leaf response
    = convertCertificateToResponse
        (parseSimpleTLSCertificate w (tls.ServerCertificates_Certificate (hs_log w))).
Proof. intros H. by apply Connect_success_inv in H as [-> _]. Qed.

Lemma Connect_response_fields_witness :
  ∃ response,
    fst (Connect fast_world sample_client "::1" "8443" sample_rt)
    = Done (Some response, None)
    ∧ clients.Host response = "::1"
    ∧ clients.Port response = "8443".
Proof.
  eexists. split; [vm_compute; reflexivity |].
  destruct (Connect_response_fields fast_world sample_client "::1" "8443" sample_rt _
              ltac:(vm_compute; reflexivity)) as (Hhost & Hport & _).
  split; [exact Hhost | exact Hport].
Defined.

(** X8: the connection is closed by the deferred call exactly when there is
    one and the call comes back: after a successful dial every path that
    returns (or panics) ends with the one close of the call, a call that
    hangs in the handshake has not closed, and after a failed dial nothing is
    closed. *)
Theorem Connect_close w c hostname port rt :
  let evs := Connect_events w c hostname port rt in
  (dial_result w ≠ None → EvClose ∉ evs)
  ∧ (dial_result w = None →
     fst (Connect w c hostname port rt) = Hang → EvClose ∉ evs)
  ∧ (dial_result w = None →
     fst (Connect w c hostname port rt) ≠ Hang →
     ∃ before, evs = before ++ [EvClose] ∧ EvClose ∉ before).
Proof.
  cbn zeta. rewrite Connect_events_eq, Connect_fst. unfold dial_events.
  split; [| split].
  - destruct (dial_result w); [| done]. intros _. case_decide; event_not_in.
  - intros ->. destruct (heap rt !! tlsConfig c); [| done].
    destruct (observe w c rt) as [[[]|]| |]; try done.
    intros _. repeat case_decide; event_not_in.
  - intros ->. destruct (heap rt !! tlsConfig c).
    + destruct (observe w c rt) as [[[]|]| |]; try done; intros _;
        repeat case_decide; try done;
        match goal with
        | |- ∃ before, ?l = _ ∧ _ =>
            exists (removelast l); split; [done | cbn; event_not_in]
        end.
    + intros _. case_decide;
        match goal with
        | |- ∃ before, ?l = _ ∧ _ =>
            exists (removelast l); split; [done | cbn; event_not_in]
        end.
Qed.

Lemma Connect_close_witness :
  (EvClose ∉ Connect_events refused_world sample_client "192.0.2.1" "443" sample_rt)
  ∧ (EvClose ∉ Connect_events hung_world sync_client "example.com" "443" sync_rt)
  ∧ ∃ before, Connect_events slow_world sample_client "example.com" "443" sample_rt
              = before ++ [EvClose] ∧ EvClose ∉ before.
Proof.
  split; [| split].
  - apply (proj1 (Connect_close refused_world sample_client "192.0.2.1" "443" sample_rt)).
    discriminate.
  - apply (proj1 (proj2 (Connect_close hung_world sync_client "example.com" "443" sync_rt)));
      [reflexivity | vm_compute; reflexivity].
  - apply (proj2 (proj2 (Connect_close slow_world sample_client "example.com" "443"
                           sample_rt))); [reflexivity | vm_compute; discriminate].
Defined.

(** X9: with a live client [Connect] never dereferences a dangling pointer;
    with a timeout configured it always returns, whatever the handshake does;
    with none it returns after a successful dial exactly when the handshake
    returns, and hangs in it otherwise. *)
Theorem Connect_returns w c hostname port rt :
  live c rt →
  fst (Connect w c hostname port rt) ≠ Panic
  ∧ (net.Timeout (dialer c) ≠ 0%Z → ∃ r, fst (Connect w c hostname port rt) = Done r)
  ∧ (dial_result w ≠ None → ∃ r, fst (Connect w c hostname port rt) = Done r)
  ∧ (net.Timeout (dialer c) = 0%Z → dial_result w = None →
     (fst (Connect w c hostname port rt) = Hang ↔ hs_latency w = None)).
Proof.
  intros [cfg Hcfg]. rewrite Connect_fst, Hcfg. unfold observe.
  split; [| split; [| split]].
  - destruct (dial_result w); [done |].
    case_decide; destruct (hs_latency w); try done;
      try destruct (timer_first _ _ _); try done;
      destruct (hs_result w) as [[]|]; done.
  - intros Hz. destruct (dial_result w); [by eauto |].
    case_decide; [done |].
    destruct (hs_latency w); [| by eauto].
    destruct (timer_first _ _ _); [by eauto |].
    destruct (hs_result w) as [[]|]; eauto.
  - destruct (dial_result w); [by eauto | done].
  - intros Hz ->. case_decide; [| done].
    destruct (hs_latency w); [| done].
    destruct (hs_result w) as [[]|]; done.
Qed.

Lemma Connect_returns_witness :
  fst (Connect hung_world sync_client "example.com" "443" sync_rt) = Hang
  ∧ ∃ r, fst (Connect hung_world sample_client "example.com" "443" sample_rt) = Done r.
Proof.
  split.
  - apply (proj2 (proj2 (proj2
      (Connect_returns hung_world sync_client "example.com" "443" sync_rt
         ltac:(vm_compute; eexists; reflexivity))))); reflexivity.
  - apply (proj1 (proj2
      (Connect_returns hung_world sample_client "example.com" "443" sample_rt
         ltac:(vm_compute; eexists; reflexivity)))).
    vm_compute. discriminate.
Defined.

(** The local channel after a call with a timeout configured. *)
Lemma Connect_chan_timed w c hostname port rt :
  net.Timeout (dialer c) ≠ 0%Z →
  errChannel (snd (Connect w c hostname port rt)) =
  Some
    match dial_result w, heap rt !! tlsConfig c, hs_latency w with
    | None, Some _, None => mkChan 2 [] None None
    | None, Some _, Some d =>
        if timer_first w (timer_due c rt) (hs_due w rt d)
        then mkChan 2 [] None (Some (hs_due w rt d, hs_result w))
        else mkChan 2 [] (Some (timer_due c rt)) None
    | _, _, _ => mkChan 2 [] (Some (timer_due c rt)) None
    end.
Proof.
  intros Hz. unfold timer_due, hs_due.
  connect_cases w c rt; try congruence; done.
Qed.

(** X10: with a timeout configured, the channel is made with room for two
    values and at most one is still to arrive when the call is over, so
    neither sender is ever held up.  When the handshake was seen in time the
    timer has not been stopped: it is still armed for its deadline and its
    timeoutError is the value that arrives later.  When the timeout was
    reported the result of the handshake, once there, is the value that
    arrives later. *)
Theorem Connect_channel_absorbs w c hostname port rt :
  net.Timeout (dialer c) ≠ 0%Z →
  ∃ ch : chan,
    errChannel (snd (Connect w c hostname port rt)) = Some ch
    ∧ cap ch = 2
    ∧ buf ch = []
    ∧ (length (settle w ch) ≤ 1)%nat
    ∧ (live c rt → dial_result w = None → handshake_returns_first w c rt →
       timer_at ch = Some (timer_due c rt) ∧ settle w ch = [Some timeoutError])
    ∧ (live c rt → dial_result w = None → is_Some (hs_latency w) →
       timeout_fires_first w c rt →
       timer_at ch = None ∧ settle w ch = [hs_result w]).
Proof.
  intros Hz. rewrite (Connect_chan_timed _ _ _ _ _ Hz). eexists. split; [done |].
  unfold handshake_returns_first, timeout_fires_first, live.
  destruct (dial_result w), (heap rt !! tlsConfig c), (hs_latency w);
    try destruct (timer_first _ _ _) eqn:Hrace; cbn;
    repeat split; try done; try lia; try (by intros _ _ [? | ?]);
    try (by intros [] ); try (by intros _ _ []); try (by intros _ _ _ ?).
Qed.

Lemma Connect_channel_absorbs_witness :
  ∃ ch : chan,
    errChannel (snd (Connect fast_world sample_client "example.com" "443" sample_rt))
    = Some ch
    ∧ timer_at ch = Some 1000000000%Z
    ∧ settle fast_world ch = [Some timeoutError].
Proof.
  destruct (Connect_channel_absorbs fast_world sample_client "example.com" "443" sample_rt)
    as (ch & Hch & _ & _ & _ & Hhs & _).
  - vm_compute. discriminate.
  - exists ch. split; [exact Hch |].
    apply Hhs.
    + vm_compute. eexists. reflexivity.
    + reflexivity.
    + right. vm_compute. reflexivity.
Defined.

(** ** Further properties: the configuration copy and the certificates *)

(** X13: after a successful dial with a live client, a server name fixed in
    the configuration means no copy is made and memory is as before; an empty
    one means exactly one new object, at an address that was unused, equal to
    the client's configuration in every field but the server name, which is
    the host part of the dialed address. *)
Theorem Connect_config_copy w c hostname port rt (cfg : tls.Config) :
  heap rt !! tlsConfig c = Some cfg →
  dial_result w = None →
  let rt' := snd (Connect w c hostname port rt) in
  (tls.ServerName cfg ≠ "" → heap rt' = heap rt)
  ∧ (tls.ServerName cfg = "" →
     ∃ (q : loc) (copy : tls.Config),
       heap rt !! q = None
       ∧ heap rt' = <[q := copy]> (heap rt)
       ∧ tls.ServerName copy = hostnameValue_of hostname port
       ∧ tls.MinVersion copy = tls.MinVersion cfg
       ∧ tls.MaxVersion copy = tls.MaxVersion cfg
       ∧ tls.CertsOnly copy = tls.CertsOnly cfg
       ∧ tls.InsecureSkipVerify copy = tls.InsecureSkipVerify cfg).
Proof.
  intros Hcfg Hd. cbn zeta. rewrite Connect_heap, Hd, Hcfg.
  split; intros Hname; case_decide; try done.
  eexists _, _. split; [| split; [done |]]; [| done].
  apply not_elem_of_dom, is_fresh.
Qed.

Lemma Connect_config_copy_witness :
  heap (snd (Connect fast_world pinned_client "example.com" "443" pinned_rt))
  = heap pinned_rt.
Proof.
  refine (proj1 (Connect_config_copy fast_world pinned_client "example.com" "443" pinned_rt
                   (tls.mkConfig "internal.example" tls.VersionTLS11 tls.VersionTLS12
                      true false) _ _) _).
  - vm_compute. reflexivity.
  - reflexivity.
  - discriminate.
Defined.

(** X14: the X.509 decoder has no say in whether [Connect] succeeds: with
    any other decoder a call that returned a response still returns one, for
    the same host, port and version and with a chain of the same length, and
    a call that returned an error returns the same error; a certificate the
    decoder refuses only empties its own record. *)
Theorem Connect_decoder_independent w c hostname port rt
    (decoder : list byte -> x509.Certificate + error) :
  let w' := with_ParseCertificate w decoder in
  (∀ response, fst (Connect w c hostname port rt) = Done (Some response, None) →
     ∃ response',
       fst (Connect w' c hostname port rt) = Done (Some response', None)
       ∧ clients.Host response' = clients.Host response
       ∧ clients.Port response' = clients.Port response
       ∧ clients.Version response' = clients.Version response
       ∧ length (clients.Chain response') = length (clients.Chain response)
       ∧ ∀ i cert e,
           tls.ServerCertificates_Chain (hs_log w) !! i = Some cert →
           decoder (tls.Raw cert) = inr e →
           clients.Chain response' !! i = Some clients.zero_CertificateResponse)
  ∧ (∀ e, fst (Connect w c hostname port rt) = Done (None, e) →
          fst (Connect w' c hostname port rt) = Done (None, e)).
Proof.
  cbn zeta.
  assert (Hobs : observe (with_ParseCertificate w decoder) c rt = observe w c rt) by done.
  split.
  - intros response H. pose proof H as Hfst.
    apply Connect_success_inv in H as [-> _].
    exists (response_of (with_ParseCertificate w decoder) hostname port).
    split; [| split; [done | split; [done | split; [done | split]]]].
    + revert Hfst. rewrite !Connect_fst, Hobs. cbn.
      destruct (dial_result w); [done |].
      destruct (heap rt !! tlsConfig c); [| done].
      destruct (observe w c rt) as [[[]|]| |]; done.
    + cbn. by rewrite !length_map.
    + intros i cert e Hi He. cbn. rewrite list_lookup_fmap, Hi. cbn.
      unfold extract. f_equal. by eapply extract_failed.
  - intros e. rewrite !Connect_fst, Hobs. cbn.
    destruct (dial_result w); [done |].
    destruct (heap rt !! tlsConfig c); [| done].
    destruct (observe w c rt) as [[[]|]| |]; done.
Qed.

Lemma Connect_decoder_independent_witness :
  ∃ response',
    fst (Connect (with_ParseCertificate fast_world refusing_decoder) sample_client
           "example.com" "443" sample_rt)
    = Done (Some response', None)
    ∧ length (clients.Chain response') = 2
    ∧ clients.Chain response' !! 0%nat = Some clients.zero_CertificateResponse.
Proof.
  destruct (Connect_decoder_independent fast_world sample_client "example.com" "443"
              sample_rt refusing_decoder) as [Hok _].
  destruct (Hok (response_of fast_world "example.com" "443") ltac:(vm_compute; reflexivity))
    as (r' & Hr' & _ & _ & _ & Hlen & Hzero).
  exists r'. split; [exact Hr' |]. split; [exact Hlen |].
  apply (Hzero 0%nat good_raw (foreignError "x509: malformed certificate")); reflexivity.
Defined.

(** X15: the record of a decoded certificate is the zero-value record, the
    one an undecodable certificate gets, exactly when the certificate has no
    DNS names, no email addresses, and empty common names and organizations
    for issuer and subject. *)
Theorem zero_record_iff (cert : x509.Certificate) :
  convertCertificateToResponse (Some cert) = convertCertificateToResponse None
  ↔ x509.DNSNames cert = []
    ∧ x509.EmailAddresses cert = []
    ∧ pkix.CommonName (x509.Issuer cert) = ""
    ∧ pkix.Organization (x509.Issuer cert) = []
    ∧ pkix.CommonName (x509.Subject cert) = ""
    ∧ pkix.Organization (x509.Subject cert) = [].
Proof.
  cbn. unfold clients.zero_CertificateResponse. split.
  - intros H. by simplify_eq.
  - intros (-> & -> & -> & -> & -> & ->). done.
Qed.

(** X17: the handshake log is read exactly when [Connect] returns a
    response: not after a failed dial, a failed or timed-out handshake, or in
    a call that does not return. *)
Theorem Connect_log_read_iff_success w c hostname port rt :
  EvGetHandshakeLog ∈ Connect_events w c hostname port rt
  ↔ ∃ response, fst (Connect w c hostname port rt) = Done (Some response, None).
Proof.
  rewrite Connect_events_eq, Connect_fst. unfold dial_events.
  assert (Hin : ∀ l, EvGetHandshakeLog ∈ l ++ [EvGetHandshakeLog; EvClose]).
  { intros l. apply elem_of_app. right. by left. }
  destruct (dial_result w).
  { split; [| by intros [? ?]]. intros H. exfalso. revert H. case_decide; event_not_in. }
  destruct (heap rt !! tlsConfig c).
  2:{ split; [| by intros [? ?]]. intros H. exfalso. revert H. case_decide; event_not_in. }
  destruct (observe w c rt) as [[[]|]| |].
  all: split; [ intros H | intros [? ?] ]; try done; eauto.
  all: try (exfalso; revert H; repeat case_decide; event_not_in).
  all: repeat case_decide; cbn;
    rewrite ?elem_of_cons; cbn; rewrite ?elem_of_cons; naive_solver.
Qed.

Lemma zero_record_iff_witness :
  convertCertificateToResponse
    (Some (x509.mkCertificate [] [] {| pkix.CommonName := ""; pkix.Organization := [] |}
             {| pkix.CommonName := ""; pkix.Organization := [] |}))
  = convertCertificateToResponse None.
Proof. apply (proj2 (zero_record_iff _)). repeat split. Defined.

Lemma Connect_log_read_iff_success_witness :
  EvGetHandshakeLog ∈ Connect_events fast_world sample_client "example.com" "443" sample_rt.
Proof.
  apply (proj2 (Connect_log_read_iff_success fast_world sample_client "example.com" "443"
                  sample_rt)).
  eexists. vm_compute. reflexivity.
Defined.

Lemma version_tables_inverse_witness :
  versionToTLSVersionString !! tls.VersionTLS11 = Some "tls11".
Proof. apply (proj1 (version_tables_inverse "tls11" tls.VersionTLS11)). reflexivity. Defined.

(** ** Further properties: [New] and [Connect] together *)

(** The configuration objects one call hands to the engine. *)
Lemma Connect_events_engine_configs w c hostname port rt :
  engine_configs (Connect_events w c hostname port rt) =
  match dial_result w, heap rt !! tlsConfig c with
  | None, Some _ => [tlsConfig c]
  | _, _ => []
  end.
Proof.
  rewrite Connect_events_eq. unfold engine_configs, dial_events. rewrite omap_app.
  destruct (dial_result w); [by case_decide |].
  destruct (heap rt !! tlsConfig c); [| by case_decide].
  cbn. rewrite omap_app.
  repeat case_decide; try done; destruct (observe w c rt) as [[[]|]| |]; done.
Qed.

(** X16: a client [New] returns can be connected at once: [Connect] does
    not panic on it, and after a successful dial the one configuration object
    handed to the handshake engine is the object [New] built, still holding
    the version bounds, the flags and the server name [New] gave it. *)
Theorem New_then_Connect options rt0 c w hostname port :
  fst (New options rt0) = Done (Some c, None) →
  let rt := snd (New options rt0) in
  let rt' := snd (Connect w c hostname port rt) in
  fst (Connect w c hostname port rt) ≠ Panic
  ∧ (dial_result w = None →
     engine_configs (Connect_events w c hostname port rt) = [tlsConfig c]
     ∧ heap rt' !! tlsConfig c
       = Some (tls.mkConfig (clients.ServerName options)
                 (version_or tls.VersionSSL30 (clients.MinVersion options))
                 (version_or tls.VersionTLS12 (clients.MaxVersion options))
                 (clients.CertsOnly options)
                 (negb (clients.VerifyServerCertificate options)))).
Proof.
  intros H. cbn zeta. pose proof (New_live _ _ _ _ H) as [cfg Hcfg].
  pose proof H as Hinv. apply New_success_inv in Hinv as (_ & Hc & Hheap).
  assert (Hobj : heap (snd (New options rt0)) !! tlsConfig c
                 = Some (tls.mkConfig (clients.ServerName options)
                           (version_or tls.VersionSSL30 (clients.MinVersion options))
                           (version_or tls.VersionTLS12 (clients.MaxVersion options))
                           (clients.CertsOnly options)
                           (negb (clients.VerifyServerCertificate options)))).
  { rewrite Hheap, Hc. cbn. apply lookup_insert_eq. }
  split.
  - rewrite Connect_fst, Hcfg. unfold observe.
    destruct (dial_result w); [done |].
    case_decide; destruct (hs_latency w); try done;
      try destruct (timer_first _ _ _); try done;
      destruct (hs_result w) as [[]|]; done.
  - intros Hd. split.
    + by rewrite Connect_events_engine_configs, Hd, Hcfg.
    + rewrite Connect_heap, Hd, Hcfg. case_decide; [| done].
      rewrite lookup_insert_ne; [done |].
      intros Heq. pose proof (is_fresh (dom (heap (snd (New options rt0))))) as Hfresh.
      rewrite Heq in Hfresh. apply not_elem_of_dom in Hfresh. congruence.
Qed.

Lemma New_then_Connect_witness :
  engine_configs (Connect_events fast_world pinned_client "example.com" "443" pinned_rt)
  = [tlsConfig pinned_client].
Proof.
  refine (proj1 (proj2 (New_then_Connect pinned_options rt_init pinned_client fast_world
                          "example.com" "443" _) _)).
  - vm_compute. reflexivity.
  - reflexivity.
Defined.

(** ** Further properties: the host part of the dialed address *)

Lemma append_nil_l (s : string) : "" +:+ s = s.
Proof. reflexivity. Qed.

Lemma append_cons (x : ascii) (a b : string) : String x a +:+ b = String x (a +:+ b).
Proof. reflexivity. Qed.

Lemma append_assoc (a b c : string) : (a +:+ b) +:+ c = a +:+ (b +:+ c).
Proof.
  induction a as [|x a IH]; [done |]. by rewrite !append_cons, IH.
Qed.

Lemma has_colon_app (a b : string) :
  net.has_colon (a +:+ b) = net.has_colon a || net.has_colon b.
Proof.
  induction a as [|x a IH]; [done |]. rewrite append_cons. cbn. by case_decide.
Qed.

(** Looking for a colon at the head of a string. *)
Lemma prefix_colon (x : ascii) (s : string) :
  String.prefix ":" (String x s) = bool_decide (x = ":"%char).
Proof.
  change (String.prefix ":" (String x s))
    with (if Ascii.ascii_dec ":" x then String.prefix "" s else false).
  destruct (Ascii.ascii_dec ":" x) as [<- | Hne].
  - by destruct s.
  - symmetry. apply bool_decide_eq_false. congruence.
Qed.

(** No colon, no index. *)
Lemma LastIndex_no_colon (s : string) (i : Z) :
  net.has_colon s = false → LastIndex_from i s ":" = (-1)%Z.
Proof.
  revert i. induction s as [|x s IH]; intros i; cbn [LastIndex_from net.has_colon]; [done |].
  case_decide as Hx; [done |]. intros Hs. rewrite (IH _ Hs).
  case_decide; [| done]. rewrite prefix_colon.
  by rewrite bool_decide_eq_false_2.
Qed.

(** The index of a colon with no colon after it. *)
Lemma LastIndex_last_colon (a tail : string) (i : Z) :
  net.has_colon tail = false → (0 ≤ i)%Z →
  LastIndex_from i (a +:+ ":" +:+ tail) ":" = (i + len a)%Z.
Proof.
  intros Ht. revert i. induction a as [|x a IH]; intros i Hi.
  - rewrite append_nil_l, append_cons, append_nil_l. cbn [LastIndex_from].
    rewrite (LastIndex_no_colon _ _ Ht).
    case_decide; [| done]. rewrite prefix_colon.
    rewrite bool_decide_eq_true_2 by done. unfold len. cbn. lia.
  - rewrite append_cons. cbn [LastIndex_from]. rewrite IH by lia.
    unfold len. cbn [String.length]. case_decide; lia.
Qed.

Lemma has_colon_split (s : string) :
  net.has_colon s = true →
  ∃ a tail, s = a +:+ ":" +:+ tail ∧ net.has_colon tail = false.
Proof.
  induction s as [|x s IH]; cbn; [done |].
  destruct (net.has_colon s) eqn:Hs.
  - intros _. destruct (IH eq_refl) as (a & tail & -> & Ht).
    exists (String x a), tail. by rewrite append_cons.
  - case_decide as Hx; [| done]. intros _. subst x. by exists "", s.
Qed.

Lemma substring_prefix (a r : string) : String.substring 0 (String.length a) (a +:+ r) = a.
Proof.
  induction a as [|x a IH].
  - by destruct r.
  - rewrite append_cons. cbn. by rewrite IH.
Qed.

Lemma JoinHostPort_has_colon (hostname port : string) :
  net.has_colon (net.JoinHostPort hostname port) = true.
Proof.
  unfold net.JoinHostPort. destruct (net.has_colon hostname) eqn:Hh.
  - rewrite !has_colon_app. cbn. by rewrite orb_true_r.
  - rewrite !has_colon_app. cbn. by rewrite orb_true_r.
Qed.

(** The host part of an address that ends in a colon-free tail. *)
Lemma hostnameValue_of_split (hostname port a tail : string) :
  net.JoinHostPort hostname port = a +:+ ":" +:+ tail →
  net.has_colon tail = false →
  strings_LastIndex (net.JoinHostPort hostname port) ":" = len a
  ∧ hostnameValue_of hostname port = a.
Proof.
  intros Heq Ht. unfold hostnameValue_of, strings_LastIndex. rewrite Heq.
  rewrite (LastIndex_last_colon _ _ _ Ht) by lia. rewrite Z.add_0_l. split; [done |].
  unfold len. case_decide; [lia |].
  unfold slice_to. rewrite Nat2Z.id. apply substring_prefix.
Qed.

(** X11: the joined address always has a colon, so the search for the last
    one never comes back with -1, and the host part [Connect] derives is
    the address up to that colon: the address is the host part, a colon, and
    a rest that has no colon in it. *)
Theorem hostnameValue_splits_address (hostname port : string) :
  strings_LastIndex (net.JoinHostPort hostname port) ":" ≠ (-1)%Z
  ∧ strings_LastIndex (net.JoinHostPort hostname port) ":"
    = len (hostnameValue_of hostname port)
  ∧ ∃ tail : string,
      net.JoinHostPort hostname port = hostnameValue_of hostname port +:+ ":" +:+ tail
      ∧ net.has_colon tail = false.
Proof.
  destruct (has_colon_split _ (JoinHostPort_has_colon hostname port)) as (a & tail & Heq & Ht).
  destruct (hostnameValue_of_split _ _ _ _ Heq Ht) as [Hidx Hval].
  rewrite Hval, Hidx. split; [unfold len; lia |]. split; [done |]. by exists tail.
Qed.

(** X12: for a port without a colon, the derived host part is the host
    name itself when that has no colon either, and the host name in square
    brackets when it has one (a literal IPv6 address). *)
Theorem hostnameValue_plain_port (hostname port : string) :
  net.has_colon port = false →
  hostnameValue_of hostname port
  = if net.has_colon hostname then "[" +:+ hostname +:+ "]" else hostname.
Proof.
  intros Hp.
  destruct (net.has_colon hostname) eqn:Hh.
  - apply (hostnameValue_of_split hostname port ("[" +:+ hostname +:+ "]") port); [| done].
    unfold net.JoinHostPort. rewrite Hh. by rewrite !append_assoc.
  - apply (hostnameValue_of_split hostname port hostname port); [| done].
    unfold net.JoinHostPort. by rewrite Hh.
Qed.

Lemma hostnameValue_plain_port_witness :
  hostnameValue_of "example.com" "443" = "example.com"
  ∧ hostnameValue_of "2001:db8::1" "443" = "[2001:db8::1]".
Proof.
  split.
  - apply (hostnameValue_plain_port "example.com" "443"). reflexivity.
  - apply (hostnameValue_plain_port "2001:db8::1" "443"). reflexivity.
Defined.

(** ** Further properties: success and failure of [Connect] as a whole *)

(** X18: with a live client, [Connect] returns a response exactly when the
    dial succeeds, the handshake's own result is the one that is seen (it
    returns, and before the timer when one is running), and that result is
    nil or the certs-only sentinel; the response is then the one read off the
    handshake log. *)
Theorem Connect_success_iff w c hostname port rt :
  live c rt →
  (∃ response, fst (Connect w c hostname port rt) = Done (Some response, None))
  ↔ dial_result w = None
    ∧ handshake_returns_first w c rt
    ∧ (hs_result w = None ∨ hs_result w = Some ErrCertsOnly).
Proof.
  intros [cfg Hcfg]. rewrite Connect_fst, Hcfg.
  unfold observe, handshake_returns_first. split.
  - intros [response H]. destruct (dial_result w); [done |]. split; [done |].
    destruct (hs_latency w); case_decide; try done.
    + destruct (hs_result w) as [[]|]; try done; eauto.
    + destruct (timer_first _ _ _); [done |].
      destruct (hs_result w) as [[]|]; try done; eauto.
  - intros (-> & Hfirst & Hres).
    destruct (hs_latency w); [| done]. case_decide.
    + destruct Hres as [-> | ->]; eauto.
    + destruct Hfirst as [? | ->]; [done |]. destruct Hres as [-> | ->]; eauto.
Qed.

Lemma Connect_success_iff_witness :
  ∃ response,
    fst (Connect certs_only_world sample_client "example.com" "443" sample_rt)
    = Done (Some response, None).
Proof.
  apply (proj2 (Connect_success_iff certs_only_world sample_client "example.com" "443"
                  sample_rt ltac:(vm_compute; eexists; reflexivity))).
  split; [reflexivity |]. split; [right; vm_compute; reflexivity | right; reflexivity].
Defined.

(** X19: every error [Connect] returns is an annotated one, and the
    annotation tells the phase: "could not connect to address" exactly when
    the dial failed, with the dial error as what is annotated, and "could not
    do tls handshake" otherwise. *)
Theorem Connect_error_annotation w c hostname port rt
    (r : option clients.Response) (e : error) :
  fst (Connect w c hostname port rt) = Done (r, Some e) →
  r = None
  ∧ ∃ cause : error,
      (e = withMessage cause "could not connect to address"
       ∧ dial_result w = Some cause)
      ∨ (e = withMessage cause "could not do tls handshake"
         ∧ dial_result w = None
         ∧ cause ≠ ErrCertsOnly).
Proof.
  rewrite Connect_fst.
  destruct (dial_result w) as [edial|].
  { intros H. simplify_eq. split; [done |]. exists edial. by left. }
  destruct (heap rt !! tlsConfig c); [| done].
  destruct (observe w c rt) as [[cause|]| |]; try done.
  destruct cause; intros H; simplify_eq; (split; [done |]);
    eexists; right; repeat split; done.
Qed.

Lemma Connect_error_annotation_witness :
  ∃ cause : error,
    (withMessage (foreignError "remote error: handshake failure") "could not do tls handshake"
     = withMessage cause "could not connect to address"
     ∧ dial_result alert_world = Some cause)
    ∨ (withMessage (foreignError "remote error: handshake failure")
         "could not do tls handshake"
       = withMessage cause "could not do tls handshake"
       ∧ dial_result alert_world = None
       ∧ cause ≠ ErrCertsOnly).
Proof.
  apply (Connect_error_annotation alert_world sample_client "example.com" "443" sample_rt None).
  vm_compute. reflexivity.
Defined.
